(** * ThresholdStrategy (flip_7/simulation/strategies/threshold.py)

    A shallow embedding of the threshold strategy of the Flip 7 simulation
    and the properties of its decision operations.

    Python integers are unbounded, hence [Z].  Player identifiers are
    strings.  A Python [dict] keeps its keys in the order of their first
    insertion and overwrites the value of a key that is set again, so it is
    an association list here.  An operation that can raise ([IndexError],
    [ValueError], [KeyError]) returns an [option]. *)

From Stdlib Require Import ZArith List String Bool Lia DecimalString.
Import ListNotations.

Local Open Scope Z_scope.

(** ** Python primitives used by the strategy *)

Module Py.

(** [x in l] for a list of strings. *)
Definition contains (l : list string) (x : string) : bool :=
  existsb (fun y => String.eqb y x) l.

(** [l[i]]: a negative index counts from the end; out of range is an
    [IndexError]. *)
Definition getitem {A : Type} (l : list A) (i : Z) : option A :=
  let n := Z.of_nat (List.length l) in
  let j := if i <? 0 then i + n else i in
  if (j <? 0) || (n <=? j) then None else nth_error l (Z.to_nat j).

(** A [dict] from strings to integers, keys in insertion order. *)
Definition dict := list (string * Z).

(** [d[k] = v]: overwrite in place when [k] is a key, append otherwise. *)
Fixpoint dict_set (d : dict) (k : string) (v : Z) : dict :=
  match d with
  | [] => [(k, v)]
  | (k', v') :: d' =>
      if String.eqb k' k then (k', v) :: d'
      else (k', v') :: dict_set d' k v
  end.

(** [d[k]]: a missing key is a [KeyError]. *)
Fixpoint dict_get (d : dict) (k : string) : option Z :=
  match d with
  | [] => None
  | (k', v') :: d' => if String.eqb k' k then Some v' else dict_get d' k
  end.

(** [d.keys()], in insertion order. *)
Definition dict_keys (d : dict) : list string := map fst d.

(** The loop of [max(iterable, key=...)]: the running maximum is replaced
    only by an item whose key is strictly greater. *)
Fixpoint max_scan {A : Type} (key : A -> option Z) (best : A) (bestk : Z)
    (l : list A) : option A :=
  match l with
  | [] => Some best
  | x :: l' =>
      match key x with
      | None => None
      | Some k =>
          if bestk <? k then max_scan key x k l'
          else max_scan key best bestk l'
      end
  end.

(** [max(l, key=key)]: an empty [l] is a [ValueError]; an exception of
    [key] propagates. *)
Definition max_by {A : Type} (key : A -> option Z) (l : list A) : option A :=
  match l with
  | [] => None
  | x :: l' =>
      match key x with
      | None => None
      | Some k => max_scan key x k l'
      end
  end.

(** [str(n)] of an integer, as an f-string formats it. *)
Definition str_of_int (n : Z) : string := NilZero.string_of_int (Z.to_int n).

End Py.

(** ** The data carriers read by the strategy

    Only the attributes the strategy reads are kept. *)

Record OpponentInfo : Type := mkOpponentInfo {
  player_id : string;
  total_score : Z;
  round_score : Z;
  has_stayed : bool;
  is_busted : bool
}.

Record StrategyContext : Type := mkStrategyContext {
  my_player_id : string;
  my_round_score : Z;
  my_flip_three_active : bool;
  my_flip_three_count : Z;
  opponents : list OpponentInfo
}.

(** ** The strategy object *)

Record ThresholdStrategy : Type := mkThresholdStrategy {
  name : string;
  target_score : Z;
  distance_from_200 : Z
}.

(** [__init__]: [name or f"Threshold({target_score})"] takes the default
    name for [None] and for the empty string; the base class keeps the
    name. *)
Definition init (name : option string) (target_score : Z)
    (distance_from_200 : Z) : ThresholdStrategy :=
  let default := ("Threshold(" ++ Py.str_of_int target_score ++ ")")%string in
  {| name := match name with
             | None => default
             | Some n => if String.eqb n EmptyString then default else n
             end;
     target_score := target_score;
     distance_from_200 := distance_from_200 |}.

(** [__init__] with its default arguments:
    [name=None, target_score=100, distance_from_200=0]. *)
Definition init_default : ThresholdStrategy := init None 100 0.

(** The body of the loop of [opponent_can_win] for one opponent: [true]
    is an early [return True]. *)
Definition opponent_threatens (self : ThresholdStrategy)
    (opponent : OpponentInfo) : bool :=
  if 200 <=? total_score opponent then true
  else
    negb (has_stayed opponent || is_busted opponent)
    && (200 - distance_from_200 self
        <=? total_score opponent + round_score opponent).

(** [opponent_can_win]: the [for] loop over [context.opponents]. *)
Fixpoint opponent_can_win_loop (self : ThresholdStrategy)
    (l : list OpponentInfo) : bool :=
  match l with
  | [] => false
  | opponent :: l' =>
      if opponent_threatens self opponent then true
      else opponent_can_win_loop self l'
  end.

Definition opponent_can_win (self : ThresholdStrategy)
    (context : StrategyContext) : bool :=
  opponent_can_win_loop self (opponents context).

(** [decide_hit_or_stay]. *)
Definition decide_hit_or_stay (self : ThresholdStrategy)
    (context : StrategyContext) : bool :=
  if my_flip_three_active context && (0 <? my_flip_three_count context)
  then true
  else (my_round_score context <? target_score self)
       || opponent_can_win self context.

(** [opponent_ids]: the first list comprehension of the two target
    operations. *)
Definition opponent_ids (context : StrategyContext)
    (possible_targets : list string) : list string :=
  map player_id
    (filter (fun opp => Py.contains possible_targets (player_id opp))
       (opponents context)).

(** [opponent_scores]: the dict comprehension of the two target
    operations, one [dict_set] per opponent whose id is in [ids]. *)
Definition opponent_scores (context : StrategyContext) (ids : list string)
    : Py.dict :=
  fold_left
    (fun d opp =>
       if Py.contains ids (player_id opp)
       then Py.dict_set d (player_id opp) (total_score opp)
       else d)
    (opponents context) [].

(** [decide_flip_three_target]: [max] over the keys of [opponent_scores],
    by score; the strategy's own id when [opponent_ids] is empty. *)
Definition decide_flip_three_target (self : ThresholdStrategy)
    (context : StrategyContext) (possible_targets : list string)
    : option string :=
  let ids := opponent_ids context possible_targets in
  match ids with
  | [] => Some (my_player_id context)
  | _ :: _ =>
      let scores := opponent_scores context ids in
      Py.max_by (fun pid => Py.dict_get scores pid) (Py.dict_keys scores)
  end.

(** [decide_freeze_target]: the strategy's own id once the round score
    has reached the target, else as [decide_flip_three_target]. *)
Definition decide_freeze_target (self : ThresholdStrategy)
    (context : StrategyContext) (possible_targets : list string)
    : option string :=
  if target_score self <=? my_round_score context
  then Some (my_player_id context)
  else
    let ids := opponent_ids context possible_targets in
    match ids with
    | [] => Some (my_player_id context)
    | _ :: _ =>
        let scores := opponent_scores context ids in
        Py.max_by (fun pid => Py.dict_get scores pid) (Py.dict_keys scores)
    end.

(** [decide_second_chance_discard]: [duplicate_cards[-1]].  The card type
    is not inspected, so it is a parameter. *)
Definition decide_second_chance_discard {NumberCard : Type}
    (self : ThresholdStrategy) (context : StrategyContext)
    (duplicate_value : Z) (duplicate_cards : list NumberCard)
    : option NumberCard :=
  Py.getitem duplicate_cards (-1).

(** ** The methods as programs over the object's attributes

    To state what a call does to the strategy object, each method body is
    written once more as a program over the attribute store of [self]: a
    read of [self.target_score] or [self.distance_from_200] is [getattr],
    an assignment to an attribute is a [setattr_] step, and a call hands
    the store on to the next one.  Statements are kept in source order,
    [and]/[or] evaluate their right operand only when needed, and a method
    that calls another method of [self] runs it on the same store. *)

Module Method.

Definition M (A : Type) : Type := ThresholdStrategy -> A * ThresholdStrategy.

Definition ret {A : Type} (a : A) : M A := fun self => (a, self).

Definition bind {A B : Type} (m : M A) (k : A -> M B) : M B :=
  fun self => let (a, self') := m self in k a self'.

Notation "x <- m ;; k" := (bind m (fun x => k))
  (at level 61, m at next level, right associativity).

(** [self.<field>]. *)
Definition getattr {A : Type} (field : ThresholdStrategy -> A) : M A :=
  fun self => (field self, self).

(** [self.name = v], done by the base class. *)
Definition setattr_name (v : string) : M unit :=
  fun self =>
    (tt, {| name := v;
            target_score := target_score self;
            distance_from_200 := distance_from_200 self |}).

(** [self.target_score = v]. *)
Definition setattr_target_score (v : Z) : M unit :=
  fun self =>
    (tt, {| name := name self;
            target_score := v;
            distance_from_200 := distance_from_200 self |}).

(** [self.distance_from_200 = v]. *)
Definition setattr_distance_from_200 (v : Z) : M unit :=
  fun self =>
    (tt, {| name := name self;
            target_score := target_score self;
            distance_from_200 := v |}).

(** [__init__]: the three assignments, in order. *)
Definition init (name : option string) (target_score : Z)
    (distance_from_200 : Z) : M unit :=
  let default := ("Threshold(" ++ Py.str_of_int target_score ++ ")")%string in
  _ <- setattr_name
         match name with
         | None => default
         | Some n => if String.eqb n EmptyString then default else n
         end ;;
  _ <- setattr_target_score target_score ;;
  setattr_distance_from_200 distance_from_200.

(** The [for] loop of [opponent_can_win]; [self.distance_from_200] is read
    in the right operand of the [and]. *)
Fixpoint opponent_can_win_loop (l : list OpponentInfo) : M bool :=
  match l with
  | [] => ret false
  | opponent :: l' =>
      if 200 <=? total_score opponent then ret true
      else if negb (has_stayed opponent || is_busted opponent) then
        d <- getattr distance_from_200 ;;
        if 200 - d <=? total_score opponent + round_score opponent
        then ret true
        else opponent_can_win_loop l'
      else opponent_can_win_loop l'
  end.

Definition opponent_can_win (context : StrategyContext) : M bool :=
  opponent_can_win_loop (opponents context).

(** [self.opponent_can_win(context)] is called only when the round score
    has reached the target. *)
Definition decide_hit_or_stay (context : StrategyContext) : M bool :=
  if my_flip_three_active context && (0 <? my_flip_three_count context)
  then ret true
  else
    t <- getattr target_score ;;
    if my_round_score context <? t then ret true
    else opponent_can_win context.

Definition decide_second_chance_discard {NumberCard : Type}
    (context : StrategyContext) (duplicate_value : Z)
    (duplicate_cards : list NumberCard) : M (option NumberCard) :=
  ret (Py.getitem duplicate_cards (-1)).

Definition decide_flip_three_target (context : StrategyContext)
    (possible_targets : list string) : M (option string) :=
  let ids := opponent_ids context possible_targets in
  match ids with
  | [] => ret (Some (my_player_id context))
  | _ :: _ =>
      let scores := opponent_scores context ids in
      ret (Py.max_by (fun pid => Py.dict_get scores pid)
             (Py.dict_keys scores))
  end.

Definition decide_freeze_target (context : StrategyContext)
    (possible_targets : list string) : M (option string) :=
  t <- getattr target_score ;;
  if t <=? my_round_score context then ret (Some (my_player_id context))
  else
    let ids := opponent_ids context possible_targets in
    match ids with
    | [] => ret (Some (my_player_id context))
    | _ :: _ =>
        let scores := opponent_scores context ids in
        ret (Py.max_by (fun pid => Py.dict_get scores pid)
               (Py.dict_keys scores))
    end.

End Method.

(** ** Method calls on a strategy object *)

Section Calls.

Variable NumberCard : Type.

Inductive Call : Type :=
| CallHitOrStay (context : StrategyContext)
| CallSecondChanceDiscard (context : StrategyContext) (duplicate_value : Z)
    (duplicate_cards : list NumberCard)
| CallFlipThreeTarget (context : StrategyContext)
    (possible_targets : list string)
| CallFreezeTarget (context : StrategyContext)
    (possible_targets : list string)
| CallOpponentCanWin (context : StrategyContext).

Inductive Result : Type :=
| RBool (b : bool)
| RCard (c : option NumberCard)
| RPlayer (p : option string).

(** One call: the method body run on the object, its value and the object
    as the body leaves it. *)
Definition invoke (c : Call) : Method.M Result :=
  match c with
  | CallHitOrStay context =>
      Method.bind (Method.decide_hit_or_stay context)
        (fun b => Method.ret (RBool b))
  | CallSecondChanceDiscard context v cards =>
      Method.bind (Method.decide_second_chance_discard context v cards)
        (fun r => Method.ret (RCard r))
  | CallFlipThreeTarget context targets =>
      Method.bind (Method.decide_flip_three_target context targets)
        (fun r => Method.ret (RPlayer r))
  | CallFreezeTarget context targets =>
      Method.bind (Method.decide_freeze_target context targets)
        (fun r => Method.ret (RPlayer r))
  | CallOpponentCanWin context =>
      Method.bind (Method.opponent_can_win context)
        (fun b => Method.ret (RBool b))
  end.

(** A history of calls on one object, each call on the object as the
    calls before it left it; the results in call order. *)
Fixpoint run (calls : list Call) : Method.M (list Result) :=
  match calls with
  | [] => Method.ret []
  | c :: calls' =>
      Method.bind (invoke c)
        (fun r => Method.bind (run calls')
                    (fun rs => Method.ret (r :: rs)))
  end.

End Calls.

Arguments CallHitOrStay {NumberCard}.
Arguments CallSecondChanceDiscard {NumberCard}.
Arguments CallFlipThreeTarget {NumberCard}.
Arguments CallFreezeTarget {NumberCard}.
Arguments CallOpponentCanWin {NumberCard}.
Arguments RBool {NumberCard}.
Arguments RCard {NumberCard}.
Arguments RPlayer {NumberCard}.
Arguments invoke {NumberCard}.
Arguments run {NumberCard}.

(** ** Notions the properties are stated with *)

(** The forced draw of a Flip Three is inactive. *)
Definition forced_draw_inactive (context : StrategyContext) : Prop :=
  my_flip_three_active context = false \/ my_flip_three_count context <= 0.

(** The opponents whose id appears in [possible_targets], in the order of
    [context.opponents]. *)
Definition eligible_opponents (context : StrategyContext)
    (possible_targets : list string) : list OpponentInfo :=
  filter (fun opp => Py.contains possible_targets (player_id opp))
    (opponents context).

(** [o] is the member of [l] with the highest total score, the first of
    them in the order of [l] when several share it: every earlier member
    has a strictly lower score and no later member has a higher one. *)
Definition is_first_highest (l : list OpponentInfo) (o : OpponentInfo)
    : Prop :=
  exists l1 l2,
    l = l1 ++ o :: l2
    /\ Forall (fun x => total_score x < total_score o) l1
    /\ Forall (fun x => total_score x <= total_score o) l2.

(** The same selection as a linear scan that keeps the best opponent seen
    so far and replaces it only by a strictly better one. *)
Fixpoint first_highest_from (best : OpponentInfo) (l : list OpponentInfo)
    : OpponentInfo :=
  match l with
  | [] => best
  | x :: l' =>
      if total_score best <? total_score x then first_highest_from x l'
      else first_highest_from best l'
  end.

Definition first_highest (l : list OpponentInfo) : option OpponentInfo :=
  match l with
  | [] => None
  | x :: l' => Some (first_highest_from x l')
  end.

(** One step of the dict comprehension, and the dict built from a list of
    opponents that all pass its filter. *)
Definition record_score (d : Py.dict) (opp : OpponentInfo) : Py.dict :=
  Py.dict_set d (player_id opp) (total_score opp).

Definition record_scores (l : list OpponentInfo) (d : Py.dict) : Py.dict :=
  fold_left record_score l d.

Definition score_entry (opp : OpponentInfo) : string * Z :=
  (player_id opp, total_score opp).

(** The score an id is ranked by once the dict is built from [l]: the
    total score of the last opponent of [l] that carries the id. *)
Fixpoint ranking_score (l : list OpponentInfo) (k : string) : option Z :=
  match l with
  | [] => None
  | o :: l' =>
      match ranking_score l' k with
      | Some v => Some v
      | None => if String.eqb (player_id o) k then Some (total_score o)
                else None
      end
  end.

(** The ids of a list in the order of their first occurrence: the key
    order of a dict into which they are inserted one after the other. *)
Definition first_occurrences (ids : list string) : list string :=
  fold_left (fun acc k => if Py.contains acc k then acc else acc ++ [k])
    ids [].

(** [o'] is [o] with scores that are not lower and the same flags. *)
Definition scores_raised (o o' : OpponentInfo) : Prop :=
  has_stayed o' = has_stayed o
  /\ is_busted o' = is_busted o
  /\ total_score o <= total_score o'
  /\ round_score o <= round_score o'.

(** ** Sample data *)

Module Samples.

Definition opp (pid : string) (total round : Z) : OpponentInfo :=
  mkOpponentInfo pid total round false false.

Definition ctx (round : Z) (opps : list OpponentInfo) : StrategyContext :=
  mkStrategyContext "p1" round false 0 opps.

Definition forced (round : Z) (opps : list OpponentInfo) : StrategyContext :=
  mkStrategyContext "p1" round true 2 opps.

Definition strategy (d : Z) : ThresholdStrategy :=
  init None 100 d.

End Samples.

(** ** Facts about the Python primitives *)

Lemma contains_In (l : list string) (x : string) :
  Py.contains l x = true <-> In x l.
Proof.
  unfold Py.contains. rewrite existsb_exists. split.
  - intros [y [Hy Heq]]. apply String.eqb_eq in Heq. now subst.
  - intros H. exists x. split; [assumption | apply String.eqb_refl].
Qed.

Lemma contains_not_In (l : list string) (x : string) :
  Py.contains l x = false <-> ~ In x l.
Proof.
  rewrite <- contains_In. destruct (Py.contains l x); split; intros H;
    congruence || (exfalso; now apply H) || reflexivity.
Qed.

Lemma getitem_last {A : Type} (l : list A) (x : A) :
  Py.getitem (l ++ [x]) (-1) = Some x.
Proof.
  unfold Py.getitem. rewrite length_app. cbn [List.length].
  replace (-1 <? 0) with true by reflexivity.
  replace (-1 + Z.of_nat (List.length l + 1)) with (Z.of_nat (List.length l))
    by lia.
  destruct (Z.ltb_spec (Z.of_nat (List.length l)) 0) as [H | _]; [lia |].
  destruct (Z.leb_spec (Z.of_nat (List.length l + 1)) (Z.of_nat (List.length l)))
    as [H | _]; [lia |].
  cbn [orb]. rewrite Nat2Z.id, nth_error_app2 by lia.
  now rewrite Nat.sub_diag.
Qed.

Lemma getitem_nil {A : Type} (i : Z) : Py.getitem (@nil A) i = None.
Proof.
  unfold Py.getitem. cbn [List.length Z.of_nat].
  destruct (i <? 0) eqn:Hi.
  - rewrite Z.add_0_r, Hi. reflexivity.
  - rewrite Hi. destruct (Z.leb_spec 0 i) as [_ | H]; [reflexivity |].
    apply Z.ltb_ge in Hi. lia.
Qed.

Lemma snoc_of_nonempty {A : Type} (l : list A) :
  l <> [] -> exists l' x, l = l' ++ [x].
Proof.
  intros H. destruct (exists_last H) as [l' [x Hx]]. now exists l', x.
Qed.

(** ** [opponent_can_win] *)

Section CanWin.

Variable self : ThresholdStrategy.

Lemma opponent_threatens_true (o : OpponentInfo) :
  opponent_threatens self o = true <->
  200 <= total_score o
  \/ (has_stayed o = false /\ is_busted o = false
      /\ 200 - distance_from_200 self <= total_score o + round_score o).
Proof.
  unfold opponent_threatens.
  destruct (Z.leb_spec 200 (total_score o)) as [H | H].
  - split; [now left | reflexivity].
  - rewrite andb_true_iff, negb_true_iff, orb_false_iff, Z.leb_le.
    split.
    + intros [[Hs Hb] Hsum]. right. now repeat split.
    + intros [Hge | [Hs [Hb Hsum]]]; [lia | now repeat split].
Qed.

Lemma opponent_can_win_loop_true (l : list OpponentInfo) :
  opponent_can_win_loop self l = true <->
  exists o, In o l /\ opponent_threatens self o = true.
Proof.
  induction l as [| x l IH]; cbn [opponent_can_win_loop].
  - split; [discriminate | intros [o [[] _]]].
  - destruct (opponent_threatens self x) eqn:Hx.
    + split; [| reflexivity]. intros _. exists x. split; [now left | exact Hx].
    + rewrite IH. split.
      * intros [o [Hin Ho]]. exists o. split; [now right | exact Ho].
      * intros [o [[Heq | Hin] Ho]]; [subst; congruence |].
        now exists o.
Qed.

End CanWin.

(** C2.  [opponent_can_win] returns true exactly when some opponent has a
    total score of at least 200 (whether or not that opponent has stayed or
    busted), or some opponent that has neither stayed nor busted has
    [total_score + round_score >= 200 - distance_from_200]; in every other
    case it returns false. *)
Theorem opponent_can_win_iff :
  forall (self : ThresholdStrategy) (context : StrategyContext),
    (opponent_can_win self context = true <->
     (exists o, In o (opponents context) /\ 200 <= total_score o)
     \/ (exists o, In o (opponents context)
                   /\ has_stayed o = false /\ is_busted o = false
                   /\ 200 - distance_from_200 self
                      <= total_score o + round_score o))
    /\ (opponent_can_win self context = false <->
        (forall o, In o (opponents context) -> total_score o < 200)
        /\ (forall o, In o (opponents context) ->
              has_stayed o = false -> is_busted o = false ->
              total_score o + round_score o < 200 - distance_from_200 self)).
Proof.
  intros self context. unfold opponent_can_win.
  assert (Htrue :
    opponent_can_win_loop self (opponents context) = true <->
    (exists o, In o (opponents context) /\ 200 <= total_score o)
    \/ (exists o, In o (opponents context)
                  /\ has_stayed o = false /\ is_busted o = false
                  /\ 200 - distance_from_200 self
                     <= total_score o + round_score o)).
  { rewrite opponent_can_win_loop_true. split.
    - intros [o [Hin Ho]]. apply opponent_threatens_true in Ho.
      destruct Ho as [Ho | Ho]; [left | right]; now exists o.
    - intros [[o [Hin Ho]] | [o [Hin Ho]]]; exists o; split; try assumption;
        apply opponent_threatens_true; [now left | now right]. }
  split; [exact Htrue |].
  rewrite <- not_true_iff_false, Htrue. split.
  - intros Hno. split.
    + intros o Hin. destruct (Z.lt_ge_cases (total_score o) 200) as [H | H];
        [assumption |]. exfalso. apply Hno. left. now exists o.
    + intros o Hin Hs Hb.
      destruct (Z.lt_ge_cases (total_score o + round_score o)
                  (200 - distance_from_200 self)) as [H | H];
        [assumption |]. exfalso. apply Hno. right. now exists o.
  - intros [Hall Hact] [[o [Hin Ho]] | [o [Hin [Hs [Hb Ho]]]]].
    + specialize (Hall o Hin). lia.
    + specialize (Hact o Hin Hs Hb). lia.
Qed.

(** ** [decide_hit_or_stay] *)

Lemma forced_draw_inactive_guard (context : StrategyContext) :
  forced_draw_inactive context ->
  my_flip_three_active context && (0 <? my_flip_three_count context) = false.
Proof.
  intros [H | H].
  - now rewrite H.
  - apply andb_false_iff. right. now apply Z.ltb_ge.
Qed.

(** C1.  With the forced draw inactive, [decide_hit_or_stay] returns true
    exactly when the round score is below the target or
    [opponent_can_win] returns true, and returns false exactly when the
    round score has reached the target and [opponent_can_win] returns
    false. *)
Theorem decide_hit_or_stay_inactive :
  forall (self : ThresholdStrategy) (context : StrategyContext),
    forced_draw_inactive context ->
    (decide_hit_or_stay self context = true <->
     my_round_score context < target_score self
     \/ opponent_can_win self context = true)
    /\ (decide_hit_or_stay self context = false <->
        target_score self <= my_round_score context
        /\ opponent_can_win self context = false).
Proof.
  intros self context Hin. unfold decide_hit_or_stay.
  rewrite (forced_draw_inactive_guard context Hin).
  rewrite orb_true_iff, orb_false_iff, Z.ltb_lt, Z.ltb_ge.
  split; reflexivity.
Qed.

Lemma decide_hit_or_stay_inactive_witness :
  (decide_hit_or_stay (Samples.strategy 0)
     (Samples.ctx 120 [Samples.opp "p2" 150 40]) = false <->
   target_score (Samples.strategy 0) <= 120
   /\ opponent_can_win (Samples.strategy 0)
        (Samples.ctx 120 [Samples.opp "p2" 150 40]) = false).
Proof.
  apply (decide_hit_or_stay_inactive (Samples.strategy 0)
           (Samples.ctx 120 [Samples.opp "p2" 150 40])).
  left. reflexivity.
Defined.

(** C4.  While a forced draw is active ([my_flip_three_active] and
    [my_flip_three_count > 0]), [decide_hit_or_stay] returns true whatever
    the round score, the target and the opponents are. *)
Theorem decide_hit_or_stay_forced :
  forall (self : ThresholdStrategy) (context : StrategyContext),
    my_flip_three_active context = true ->
    0 < my_flip_three_count context ->
    decide_hit_or_stay self context = true.
Proof.
  intros self context Hact Hcount. unfold decide_hit_or_stay.
  rewrite Hact. apply Z.ltb_lt in Hcount. now rewrite Hcount.
Qed.

Lemma decide_hit_or_stay_forced_witness :
  decide_hit_or_stay (Samples.strategy 0) (Samples.forced 500 []) = true.
Proof.
  apply (decide_hit_or_stay_forced (Samples.strategy 0)
           (Samples.forced 500 [])).
  - reflexivity.
  - cbn. lia.
Defined.

(** ** Monotonicity in [distance_from_200] *)

Lemma opponent_threatens_mono (s s' : ThresholdStrategy) (o : OpponentInfo) :
  distance_from_200 s <= distance_from_200 s' ->
  opponent_threatens s o = true -> opponent_threatens s' o = true.
Proof.
  intros Hd. rewrite !opponent_threatens_true.
  intros [H | [Hs [Hb H]]]; [now left | right].
  repeat split; try assumption. lia.
Qed.

Lemma opponent_can_win_mono (s s' : ThresholdStrategy)
    (context : StrategyContext) :
  distance_from_200 s <= distance_from_200 s' ->
  opponent_can_win s context = true -> opponent_can_win s' context = true.
Proof.
  intros Hd. unfold opponent_can_win. rewrite !opponent_can_win_loop_true.
  intros [o [Hin Ho]]. exists o. split; [assumption |].
  now apply (opponent_threatens_mono s s').
Qed.

(** C10.  [opponent_can_win] is monotone in [distance_from_200]: for two
    strategies with the same target score and distances [d <= d'], a true
    answer with [d] is a true answer with [d'].  The same holds for
    [decide_hit_or_stay], with the forced draw inactive or not. *)
Theorem opponent_can_win_monotone :
  forall (n n' : string) (target d d' : Z) (context : StrategyContext),
    d <= d' ->
    (opponent_can_win (mkThresholdStrategy n target d) context = true ->
     opponent_can_win (mkThresholdStrategy n' target d') context = true)
    /\ (decide_hit_or_stay (mkThresholdStrategy n target d) context = true ->
        decide_hit_or_stay (mkThresholdStrategy n' target d') context = true).
Proof.
  intros n n' target d d' context Hd.
  pose proof (opponent_can_win_mono (mkThresholdStrategy n target d)
                (mkThresholdStrategy n' target d') context Hd) as Hmono.
  split; [exact Hmono |].
  unfold decide_hit_or_stay. cbn [target_score].
  destruct (my_flip_three_active context && (0 <? my_flip_three_count context));
    [trivial |].
  rewrite !orb_true_iff. intros [H | H]; [now left | right; now apply Hmono].
Qed.

Lemma opponent_can_win_monotone_witness :
  opponent_can_win (mkThresholdStrategy "b" 100 10)
    (Samples.ctx 120 [Samples.opp "p2" 150 60]) = true
  /\ decide_hit_or_stay (mkThresholdStrategy "b" 100 10)
       (Samples.ctx 120 [Samples.opp "p2" 150 60]) = true.
Proof.
  destruct (opponent_can_win_monotone "a" "b" 100 0 10
              (Samples.ctx 120 [Samples.opp "p2" 150 60])) as [H1 H2].
  - lia.
  - split; [apply H1 | apply H2]; reflexivity.
Defined.

(** ** [decide_second_chance_discard] *)

(** C6.  On a non-empty sequence [decide_second_chance_discard] returns
    the last element; on a sequence of at least two cards the card returned
    is the one in the last position, after the first card and all the cards
    in between, and not the one in the first position. *)
Theorem decide_second_chance_discard_last :
  forall (NumberCard : Type) (self : ThresholdStrategy)
         (context : StrategyContext) (duplicate_value : Z)
         (duplicate_cards : list NumberCard),
    duplicate_cards <> [] ->
    (forall d : NumberCard,
        decide_second_chance_discard self context duplicate_value
          duplicate_cards = Some (last duplicate_cards d))
    /\ ((2 <= List.length duplicate_cards)%nat ->
        exists oldest between newest,
          duplicate_cards = oldest :: between ++ [newest]
          /\ decide_second_chance_discard self context duplicate_value
               duplicate_cards = Some newest
          /\ nth_error duplicate_cards (List.length duplicate_cards - 1)
             = Some newest
          /\ (List.length duplicate_cards - 1 <> 0)%nat).
Proof.
  intros NumberCard self context v cards Hne.
  destruct (snoc_of_nonempty cards Hne) as [front [newest ->]].
  unfold decide_second_chance_discard. rewrite getitem_last. split.
  - intros d. now rewrite last_last.
  - intros Hlen. destruct front as [| oldest between].
    + cbn in Hlen. lia.
    + exists oldest, between, newest. repeat split.
      * rewrite nth_error_app2; rewrite length_app; cbn [List.length].
        -- now replace (S (List.length between) + 1 - 1
                        - S (List.length between))%nat with 0%nat by lia.
        -- lia.
      * rewrite length_app. cbn [List.length]. lia.
Qed.

Lemma decide_second_chance_discard_last_witness :
  decide_second_chance_discard (Samples.strategy 0) (Samples.ctx 0 []) 7
    [1%nat; 2%nat] = Some (last [1%nat; 2%nat] 0%nat).
Proof.
  apply (decide_second_chance_discard_last nat (Samples.strategy 0)
           (Samples.ctx 0 []) 7 [1%nat; 2%nat]).
  discriminate.
Defined.

(** The empty sequence is an [IndexError]. *)
Lemma decide_second_chance_discard_empty (NumberCard : Type)
    (self : ThresholdStrategy) (context : StrategyContext) (v : Z) :
  decide_second_chance_discard self context v (@nil NumberCard) = None.
Proof. apply getitem_nil. Qed.

(** ** The target operations: the cases that answer with the own id *)

Lemma opponent_ids_eligible (context : StrategyContext)
    (possible_targets : list string) :
  opponent_ids context possible_targets
  = map player_id (eligible_opponents context possible_targets).
Proof. reflexivity. Qed.

Lemma eligible_opponents_In (context : StrategyContext)
    (possible_targets : list string) (o : OpponentInfo) :
  In o (eligible_opponents context possible_targets) <->
  In o (opponents context) /\ In (player_id o) possible_targets.
Proof.
  unfold eligible_opponents. now rewrite filter_In, contains_In.
Qed.

Lemma eligible_opponents_none (context : StrategyContext)
    (possible_targets : list string) :
  (forall p, In p possible_targets ->
             ~ In p (map player_id (opponents context))) ->
  eligible_opponents context possible_targets = [].
Proof.
  intros Hnone.
  destruct (eligible_opponents context possible_targets) as [| o l] eqn:E;
    [reflexivity |].
  assert (Hin : In o (eligible_opponents context possible_targets))
    by (rewrite E; now left).
  apply eligible_opponents_In in Hin. destruct Hin as [Ho Hp].
  exfalso. apply (Hnone _ Hp). now apply in_map.
Qed.

(** C7.  When no id of [possible_targets] is the id of an opponent of the
    context, [decide_flip_three_target] and [decide_freeze_target] both
    return the caller's own [my_player_id]. *)
Theorem targets_without_opponent :
  forall (self : ThresholdStrategy) (context : StrategyContext)
         (possible_targets : list string),
    (forall p, In p possible_targets ->
               ~ In p (map player_id (opponents context))) ->
    decide_flip_three_target self context possible_targets
    = Some (my_player_id context)
    /\ decide_freeze_target self context possible_targets
       = Some (my_player_id context).
Proof.
  intros self context targets Hnone.
  unfold decide_flip_three_target, decide_freeze_target.
  rewrite opponent_ids_eligible, (eligible_opponents_none _ _ Hnone).
  cbn [map]. split; [reflexivity |].
  now destruct (target_score self <=? my_round_score context).
Qed.

Lemma targets_without_opponent_witness :
  decide_flip_three_target (Samples.strategy 0)
    (Samples.ctx 10 [Samples.opp "p2" 80 0]) ["p1"; "p3"]%string = Some "p1"%string
  /\ decide_freeze_target (Samples.strategy 0)
       (Samples.ctx 10 [Samples.opp "p2" 80 0]) ["p1"; "p3"]%string
     = Some "p1"%string.
Proof.
  apply (targets_without_opponent (Samples.strategy 0)
           (Samples.ctx 10 [Samples.opp "p2" 80 0]) ["p1"; "p3"]%string).
  intros p [<- | [<- | []]] [H | []]; discriminate H.
Defined.

(** C8.  Once the round score has reached the target,
    [decide_freeze_target] returns the caller's own [my_player_id], for
    every [possible_targets] and whatever the opponents are. *)
Theorem decide_freeze_target_self :
  forall (self : ThresholdStrategy) (context : StrategyContext)
         (possible_targets : list string),
    target_score self <= my_round_score context ->
    decide_freeze_target self context possible_targets
    = Some (my_player_id context).
Proof.
  intros self context targets H. unfold decide_freeze_target.
  apply Z.leb_le in H. now rewrite H.
Qed.

Lemma decide_freeze_target_self_witness :
  decide_freeze_target (Samples.strategy 0)
    (Samples.ctx 100 [Samples.opp "p2" 180 0; Samples.opp "p3" 120 0])
    ["p2"; "p3"]%string = Some "p1"%string.
Proof.
  apply (decide_freeze_target_self (Samples.strategy 0)
           (Samples.ctx 100 [Samples.opp "p2" 180 0; Samples.opp "p3" 120 0])
           ["p2"; "p3"]%string).
  cbn. lia.
Defined.

(** ** The dict of scores *)

Lemma dict_get_defined (d : Py.dict) (k : string) :
  In k (Py.dict_keys d) -> exists v, Py.dict_get d k = Some v.
Proof.
  induction d as [| [k' v'] d IH]; cbn [Py.dict_keys map fst Py.dict_get].
  - intros [].
  - intros [Heq | Hin].
    + subst. rewrite String.eqb_refl. now exists v'.
    + destruct (String.eqb k' k); [now exists v' | now apply IH].
Qed.

Lemma dict_keys_set (d : Py.dict) (k : string) (v : Z) (k' : string) :
  In k' (Py.dict_keys (Py.dict_set d k v)) <-> k' = k \/ In k' (Py.dict_keys d).
Proof.
  induction d as [| [k0 v0] d IH]; cbn [Py.dict_set].
  - cbn. intuition congruence.
  - destruct (String.eqb_spec k0 k) as [-> | Hne].
    + cbn. intuition congruence.
    + cbn [Py.dict_keys map fst In]. fold (Py.dict_keys (Py.dict_set d k v)).
      fold (Py.dict_keys d). rewrite IH. intuition congruence.
Qed.

Lemma dict_set_fresh (d : Py.dict) (k : string) (v : Z) :
  ~ In k (Py.dict_keys d) -> Py.dict_set d k v = d ++ [(k, v)].
Proof.
  induction d as [| [k0 v0] d IH]; cbn [Py.dict_set Py.dict_keys map fst In app].
  - reflexivity.
  - intros Hfresh. destruct (String.eqb_spec k0 k) as [-> | Hne].
    + exfalso. apply Hfresh. now left.
    + f_equal. apply IH. intros Hin. apply Hfresh. now right.
Qed.

Lemma record_scores_keys (l : list OpponentInfo) (d : Py.dict) (k : string) :
  In k (Py.dict_keys (record_scores l d)) <->
  In k (Py.dict_keys d) \/ In k (map player_id l).
Proof.
  revert d. induction l as [| o l IH]; intros d; cbn [record_scores fold_left].
  - cbn. intuition.
  - fold (record_scores l (record_score d o)). rewrite IH.
    unfold record_score. rewrite dict_keys_set. cbn [map In].
    intuition congruence.
Qed.

Lemma record_scores_distinct (l : list OpponentInfo) (d : Py.dict) :
  NoDup (Py.dict_keys d ++ map player_id l) ->
  record_scores l d = d ++ map score_entry l.
Proof.
  revert d. induction l as [| o l IH]; intros d Hnd;
    cbn [record_scores fold_left map].
  - now rewrite app_nil_r.
  - fold (record_scores l (record_score d o)). cbn [map] in Hnd.
    assert (Hfresh : ~ In (player_id o) (Py.dict_keys d)).
    { intros Hin. apply NoDup_remove_2 in Hnd. apply Hnd.
      apply in_or_app. now left. }
    unfold record_score. rewrite (dict_set_fresh d _ _ Hfresh).
    rewrite IH.
    + now rewrite <- app_assoc.
    + unfold Py.dict_keys. rewrite map_app. cbn [map fst].
      now rewrite <- app_assoc.
Qed.

Lemma dict_get_score_entry (l : list OpponentInfo) (o : OpponentInfo) :
  NoDup (map player_id l) -> In o l ->
  Py.dict_get (map score_entry l) (player_id o) = Some (total_score o).
Proof.
  induction l as [| x l IH]; intros Hnd Hin; [destruct Hin |].
  cbn [map score_entry Py.dict_get]. cbn [map] in Hnd.
  apply NoDup_cons_iff in Hnd. destruct Hnd as [Hx Hnd].
  destruct Hin as [-> | Hin].
  - now rewrite String.eqb_refl.
  - destruct (String.eqb_spec (player_id x) (player_id o)) as [Heq | _].
    + exfalso. apply Hx. rewrite Heq. now apply in_map.
    + now apply IH.
Qed.

Lemma fold_left_guarded {A B : Type} (f : B -> A -> B) (c : A -> bool)
    (l : list A) (b : B) :
  fold_left (fun acc x => if c x then f acc x else acc) l b
  = fold_left f (filter c l) b.
Proof.
  revert b. induction l as [| x l IH]; intros b; cbn [fold_left filter].
  - reflexivity.
  - destruct (c x); cbn [fold_left]; apply IH.
Qed.

(** The second comprehension filters by membership in [opponent_ids],
    which selects the same opponents as the first one. *)
Lemma opponent_scores_eligible (context : StrategyContext)
    (possible_targets : list string) :
  opponent_scores context (opponent_ids context possible_targets)
  = record_scores (eligible_opponents context possible_targets) [].
Proof.
  unfold opponent_scores, record_scores.
  rewrite (fold_left_guarded
             (fun d opp => Py.dict_set d (player_id opp) (total_score opp))).
  unfold eligible_opponents at 1. f_equal. apply filter_ext_in.
  intros o Ho.
  destruct (Py.contains possible_targets (player_id o)) eqn:E.
  - apply contains_In. rewrite opponent_ids_eligible. apply in_map.
    apply eligible_opponents_In. split; [assumption | now apply contains_In].
  - apply contains_not_In. intros Hin. rewrite opponent_ids_eligible in Hin.
    apply in_map_iff in Hin. destruct Hin as [o' [Hid Ho']].
    apply eligible_opponents_In in Ho'. destruct Ho' as [_ Hp].
    rewrite Hid in Hp. apply contains_In in Hp. congruence.
Qed.

(** ** [max] with a key *)

Lemma max_scan_defined {A : Type} (key : A -> option Z) (l : list A) :
  (forall x, In x l -> exists k, key x = Some k) ->
  forall best bestk,
    exists r, Py.max_scan key best bestk l = Some r /\ In r (best :: l).
Proof.
  induction l as [| x l IH]; intros Hkey best bestk; cbn [Py.max_scan].
  - exists best. split; [reflexivity | now left].
  - destruct (Hkey x (or_introl eq_refl)) as [k ->].
    assert (Hkey' : forall y, In y l -> exists k, key y = Some k)
      by (intros y Hy; apply Hkey; now right).
    destruct (bestk <? k).
    + destruct (IH Hkey' x k) as [r [Hr Hin]]. exists r.
      split; [exact Hr | now right].
    + destruct (IH Hkey' best bestk) as [r [Hr Hin]]. exists r.
      split; [exact Hr |]. destruct Hin as [<- | Hin]; [now left |].
      right. now right.
Qed.

Lemma max_by_defined {A : Type} (key : A -> option Z) (l : list A) :
  l <> [] -> (forall x, In x l -> exists k, key x = Some k) ->
  exists r, Py.max_by key l = Some r /\ In r l.
Proof.
  destruct l as [| x l]; [congruence |]. intros _ Hkey. cbn [Py.max_by].
  destruct (Hkey x (or_introl eq_refl)) as [k ->].
  apply max_scan_defined. intros y Hy. apply Hkey. now right.
Qed.

Lemma max_scan_first_highest (d : Py.dict) (l : list OpponentInfo) :
  (forall x, In x l -> Py.dict_get d (player_id x) = Some (total_score x)) ->
  forall best,
    Py.max_scan (fun pid => Py.dict_get d pid) (player_id best)
      (total_score best) (map player_id l)
    = Some (player_id (first_highest_from best l)).
Proof.
  induction l as [| x l IH]; intros Hget best;
    cbn [map Py.max_scan first_highest_from].
  - reflexivity.
  - rewrite (Hget x (or_introl eq_refl)).
    assert (Hget' : forall y, In y l ->
              Py.dict_get d (player_id y) = Some (total_score y))
      by (intros y Hy; apply Hget; now right).
    destruct (total_score best <? total_score x); now apply IH.
Qed.

(** ** The first opponent with the highest total score *)

Lemma first_highest_from_spec (l : list OpponentInfo) :
  forall best, is_first_highest (best :: l) (first_highest_from best l).
Proof.
  induction l as [| x l IH]; intros best; cbn [first_highest_from].
  - exists [], []. repeat split; constructor.
  - destruct (Z.ltb_spec (total_score best) (total_score x)) as [Hlt | Hge].
    + destruct (IH x) as [l1 [l2 [Heq [Hl1 Hl2]]]].
      exists (best :: l1), l2. split; [cbn [app]; f_equal; exact Heq |].
      split; [| exact Hl2]. constructor; [| exact Hl1].
      assert (Hx : total_score x <= total_score (first_highest_from x l)).
      { destruct l1 as [| y l1]; cbn in Heq; injection Heq as Hy Hrest.
        - rewrite <- Hy. lia.
        - subst y. apply Forall_inv in Hl1. lia. }
      lia.
    + destruct (IH best) as [l1 [l2 [Heq [Hl1 Hl2]]]].
      destruct l1 as [| y l1]; cbn in Heq; injection Heq as Hy Hrest.
      * exists [], (x :: l). rewrite <- Hy. split; [reflexivity |].
        split; [constructor |]. constructor; [exact Hge |].
        rewrite Hrest, Hy. exact Hl2.
      * subst y. exists (best :: x :: l1), l2.
        split; [cbn [app]; do 2 f_equal; exact Hrest |]. split; [| exact Hl2].
        pose proof (Forall_inv Hl1) as Hbest. cbn beta in Hbest.
        apply Forall_inv_tail in Hl1.
        constructor; [exact Hbest |]. constructor; [lia | exact Hl1].
Qed.

Lemma first_highest_spec (l : list OpponentInfo) (o : OpponentInfo) :
  first_highest l = Some o -> is_first_highest l o.
Proof.
  destruct l as [| x l]; cbn [first_highest]; [discriminate |].
  intros [= <-]. apply first_highest_from_spec.
Qed.

Lemma is_first_highest_unique (l : list OpponentInfo) (o o' : OpponentInfo) :
  is_first_highest l o -> is_first_highest l o' -> o = o'.
Proof.
  intros [l1 [l2 [Heq [Hl1 Hl2]]]] [l1' [l2' [Heq' [Hl1' Hl2']]]].
  rewrite Heq in Heq'. apply app_eq_app in Heq'.
  destruct Heq' as [m [[Hm1 Hm2] | [Hm1 Hm2]]].
  - destruct m as [| y m]; cbn in Hm2.
    + now injection Hm2.
    + injection Hm2 as Hy Hrest. subst y.
      assert (Hin : In o l2') by (rewrite Hrest; apply in_elt).
      rewrite Forall_forall in Hl2'. specialize (Hl2' o Hin).
      assert (Hin' : In o' l1) by (rewrite Hm1; apply in_elt).
      rewrite Forall_forall in Hl1. specialize (Hl1 o' Hin'). lia.
  - destruct m as [| y m]; cbn in Hm2.
    + now injection Hm2.
    + injection Hm2 as Hy Hrest. subst y.
      assert (Hin : In o' l2) by (rewrite Hrest; apply in_elt).
      rewrite Forall_forall in Hl2. specialize (Hl2 o' Hin).
      assert (Hin' : In o l1') by (rewrite Hm1; apply in_elt).
      rewrite Forall_forall in Hl1'. specialize (Hl1' o Hin'). lia.
Qed.

Lemma is_first_highest_iff (l : list OpponentInfo) (o : OpponentInfo) :
  is_first_highest l o <-> first_highest l = Some o.
Proof.
  split; [| apply first_highest_spec].
  intros H. destruct l as [| x l].
  - destruct H as [l1 [l2 [Heq _]]]. now destruct l1.
  - cbn [first_highest]. f_equal.
    apply (is_first_highest_unique (x :: l)); [| exact H].
    apply first_highest_from_spec.
Qed.

(** ** The target operations: the choice among eligible opponents *)

Lemma max_of_scores_defined (l : list OpponentInfo) :
  l <> [] ->
  exists r,
    Py.max_by (fun pid => Py.dict_get (record_scores l []) pid)
      (Py.dict_keys (record_scores l [])) = Some r
    /\ In r (map player_id l).
Proof.
  intros Hne.
  destruct (max_by_defined (fun pid => Py.dict_get (record_scores l []) pid)
              (Py.dict_keys (record_scores l []))) as [r [Hr Hin]].
  - destruct l as [| o l]; [congruence |]. intros Hnil.
    assert (Hin : In (player_id o) (Py.dict_keys (record_scores (o :: l) [])))
      by (apply record_scores_keys; right; now left).
    rewrite Hnil in Hin. destruct Hin.
  - intros k Hk. now apply dict_get_defined.
  - exists r. split; [exact Hr |].
    apply record_scores_keys in Hin. destruct Hin as [[] | Hin]. exact Hin.
Qed.

Lemma max_of_scores_distinct (l : list OpponentInfo) :
  NoDup (map player_id l) ->
  Py.max_by (fun pid => Py.dict_get (record_scores l []) pid)
    (Py.dict_keys (record_scores l []))
  = option_map player_id (first_highest l).
Proof.
  intros Hnd. rewrite (record_scores_distinct l []) by exact Hnd.
  cbn [app]. unfold Py.dict_keys. rewrite map_map.
  rewrite (map_ext (fun o => fst (score_entry o)) player_id)
    by reflexivity.
  destruct l as [| x l]; [reflexivity |].
  assert (Hget : forall y, In y (x :: l) ->
            Py.dict_get (map score_entry (x :: l)) (player_id y)
            = Some (total_score y))
    by (intros y Hy; now apply dict_get_score_entry).
  change (map player_id (x :: l)) with (player_id x :: map player_id l).
  unfold Py.max_by. rewrite (Hget x (or_introl eq_refl)).
  cbn [first_highest option_map].
  apply max_scan_first_highest.
  intros y Hy. apply Hget. now right.
Qed.

Lemma flip_three_target_eligible (self : ThresholdStrategy)
    (context : StrategyContext) (possible_targets : list string) :
  eligible_opponents context possible_targets <> [] ->
  decide_flip_three_target self context possible_targets
  = Py.max_by
      (fun pid =>
         Py.dict_get
           (record_scores (eligible_opponents context possible_targets) []) pid)
      (Py.dict_keys
         (record_scores (eligible_opponents context possible_targets) [])).
Proof.
  intros Hne. unfold decide_flip_three_target.
  rewrite opponent_scores_eligible, opponent_ids_eligible.
  destruct (eligible_opponents context possible_targets); [congruence |].
  reflexivity.
Qed.

Lemma freeze_target_below (self : ThresholdStrategy)
    (context : StrategyContext) (possible_targets : list string) :
  my_round_score context < target_score self ->
  decide_freeze_target self context possible_targets
  = decide_flip_three_target self context possible_targets.
Proof.
  intros Hlt. unfold decide_freeze_target, decide_flip_three_target.
  apply Z.leb_gt in Hlt. now rewrite Hlt.
Qed.

(** [decide_flip_three_target] always returns: the [max] is taken over a
    non-empty dict whose keys are all ids of eligible opponents. *)
Lemma flip_three_target_defined (self : ThresholdStrategy)
    (context : StrategyContext) (possible_targets : list string) :
  eligible_opponents context possible_targets <> [] ->
  exists o,
    In o (eligible_opponents context possible_targets)
    /\ decide_flip_three_target self context possible_targets
       = Some (player_id o).
Proof.
  intros Hne. rewrite (flip_three_target_eligible self _ _ Hne).
  destruct (max_of_scores_defined _ Hne) as [r [Hr Hin]].
  apply in_map_iff in Hin. destruct Hin as [o [Hid Ho]].
  exists o. split; [exact Ho | now rewrite Hid].
Qed.

(** C3, as amended.  [decide_flip_three_target] always returns a player
    id.  When some opponent's id appears in [possible_targets], the id
    returned is drawn from [possible_targets] and is the id of an opponent;
    when none does, it is the caller's own [my_player_id], whether or not
    that id is in [possible_targets]. *)
Theorem decide_flip_three_target_range :
  forall (self : ThresholdStrategy) (context : StrategyContext)
         (possible_targets : list string),
    exists r,
      decide_flip_three_target self context possible_targets = Some r
      /\ ((eligible_opponents context possible_targets <> []
           /\ In r possible_targets
           /\ In r (map player_id (opponents context)))
          \/ (eligible_opponents context possible_targets = []
              /\ r = my_player_id context)).
Proof.
  intros self context targets.
  destruct (eligible_opponents context targets) as [| e es] eqn:E.
  - exists (my_player_id context). split; [| right; now split].
    unfold decide_flip_three_target. now rewrite opponent_ids_eligible, E.
  - assert (Hne : eligible_opponents context targets <> [])
      by (rewrite E; discriminate).
    destruct (flip_three_target_defined self context targets Hne)
      as [o [Ho Hd]].
    exists (player_id o). split; [exact Hd | left].
    apply eligible_opponents_In in Ho. destruct Ho as [Hopp Hp].
    split; [discriminate |]. split; [exact Hp | now apply in_map].
Qed.

(** C3 as stated fails: with no eligible opponent the own id is returned,
    here an id that [possible_targets] does not contain. *)
Lemma decide_flip_three_target_outside_targets :
  decide_flip_three_target (Samples.strategy 0)
    (Samples.ctx 10 [Samples.opp "p2" 80 0]) ["p3"%string]
  = Some "p1"%string
  /\ ~ In "p1"%string ["p3"%string].
Proof.
  split; [reflexivity |]. intros [H | []]. discriminate H.
Qed.

(** C5, as amended.  When the eligible opponents are non-empty and have
    pairwise distinct ids, [decide_flip_three_target] returns the id of
    the eligible opponent with the highest total score, the first of them
    in the order of [context.opponents] when several share that score;
    [decide_freeze_target] returns the same id when the round score is
    below the target. *)
Theorem targets_pick_first_highest :
  forall (self : ThresholdStrategy) (context : StrategyContext)
         (possible_targets : list string),
    eligible_opponents context possible_targets <> [] ->
    NoDup (map player_id (eligible_opponents context possible_targets)) ->
    exists o,
      is_first_highest (eligible_opponents context possible_targets) o
      /\ decide_flip_three_target self context possible_targets
         = Some (player_id o)
      /\ (my_round_score context < target_score self ->
          decide_freeze_target self context possible_targets
          = Some (player_id o)).
Proof.
  intros self context targets Hne Hnd.
  pose proof (flip_three_target_eligible self context targets Hne) as Hd.
  rewrite (max_of_scores_distinct _ Hnd) in Hd.
  destruct (first_highest (eligible_opponents context targets)) as [o |] eqn:E.
  - exists o. split; [now apply first_highest_spec |].
    split; [exact Hd |]. intros Hlt.
    now rewrite (freeze_target_below self context targets Hlt).
  - destruct (eligible_opponents context targets); [congruence | discriminate].
Qed.

Lemma targets_pick_first_highest_witness :
  exists o,
    is_first_highest
      (eligible_opponents
         (Samples.ctx 10 [Samples.opp "p2" 80 0; Samples.opp "p3" 120 0;
                          Samples.opp "p4" 120 0])
         ["p2"; "p3"; "p4"]%string) o
    /\ decide_flip_three_target (Samples.strategy 0)
         (Samples.ctx 10 [Samples.opp "p2" 80 0; Samples.opp "p3" 120 0;
                          Samples.opp "p4" 120 0])
         ["p2"; "p3"; "p4"]%string = Some (player_id o)
    /\ (10 < target_score (Samples.strategy 0) ->
        decide_freeze_target (Samples.strategy 0)
          (Samples.ctx 10 [Samples.opp "p2" 80 0; Samples.opp "p3" 120 0;
                           Samples.opp "p4" 120 0])
          ["p2"; "p3"; "p4"]%string = Some (player_id o)).
Proof.
  apply (targets_pick_first_highest (Samples.strategy 0)
           (Samples.ctx 10 [Samples.opp "p2" 80 0; Samples.opp "p3" 120 0;
                            Samples.opp "p4" 120 0])
           ["p2"; "p3"; "p4"]%string).
  - discriminate.
  - cbn. repeat constructor; cbn; intuition discriminate.
Defined.

(** C5 as stated fails when two eligible opponents carry the same id: the
    dict keeps the id at its first position with the score set last, so
    the opponent with total score 100 counts as 10 and the id of the
    opponent with 50 is returned, by both operations. *)
Lemma targets_repeated_id :
  decide_flip_three_target (Samples.strategy 0)
    (Samples.ctx 10 [Samples.opp "p2" 100 0; Samples.opp "p3" 50 0;
                     Samples.opp "p2" 10 0])
    ["p2"; "p3"]%string = Some "p3"%string
  /\ decide_freeze_target (Samples.strategy 0)
       (Samples.ctx 10 [Samples.opp "p2" 100 0; Samples.opp "p3" 50 0;
                        Samples.opp "p2" 10 0])
       ["p2"; "p3"]%string = Some "p3"%string
  /\ ~ (exists o,
          is_first_highest
            (eligible_opponents
               (Samples.ctx 10 [Samples.opp "p2" 100 0; Samples.opp "p3" 50 0;
                                Samples.opp "p2" 10 0])
               ["p2"; "p3"]%string) o
          /\ decide_flip_three_target (Samples.strategy 0)
               (Samples.ctx 10 [Samples.opp "p2" 100 0; Samples.opp "p3" 50 0;
                                Samples.opp "p2" 10 0])
               ["p2"; "p3"]%string = Some (player_id o)).
Proof.
  split; [reflexivity |]. split; [reflexivity |].
  intros [o [Hfirst Hd]]. apply is_first_highest_iff in Hfirst.
  cbn in Hfirst. injection Hfirst as <-. discriminate Hd.
Qed.

(** ** Calls do not touch the configuration *)

(** Each method body, run on an object, returns the value of the function
    of the same name and leaves every attribute as it found it. *)

Lemma method_opponent_can_win_loop (l : list OpponentInfo)
    (self : ThresholdStrategy) :
  Method.opponent_can_win_loop l self = (opponent_can_win_loop self l, self).
Proof.
  induction l as [| o l IH];
    cbn [Method.opponent_can_win_loop opponent_can_win_loop].
  - reflexivity.
  - unfold opponent_threatens.
    destruct (200 <=? total_score o); [reflexivity |].
    destruct (negb (has_stayed o || is_busted o)); cbn [andb];
      [| exact IH].
    unfold Method.bind, Method.getattr.
    destruct (200 - distance_from_200 self
              <=? total_score o + round_score o); [reflexivity | exact IH].
Qed.

Lemma method_opponent_can_win (context : StrategyContext)
    (self : ThresholdStrategy) :
  Method.opponent_can_win context self = (opponent_can_win self context, self).
Proof. apply method_opponent_can_win_loop. Qed.

Lemma method_decide_hit_or_stay (context : StrategyContext)
    (self : ThresholdStrategy) :
  Method.decide_hit_or_stay context self
  = (decide_hit_or_stay self context, self).
Proof.
  unfold Method.decide_hit_or_stay, decide_hit_or_stay.
  destruct (my_flip_three_active context && (0 <? my_flip_three_count context));
    [reflexivity |].
  unfold Method.bind, Method.getattr.
  destruct (my_round_score context <? target_score self); [reflexivity |].
  cbn [orb]. apply method_opponent_can_win.
Qed.

Lemma method_decide_second_chance_discard {NumberCard : Type}
    (context : StrategyContext) (v : Z) (cards : list NumberCard)
    (self : ThresholdStrategy) :
  Method.decide_second_chance_discard context v cards self
  = (decide_second_chance_discard self context v cards, self).
Proof. reflexivity. Qed.

Lemma method_decide_flip_three_target (context : StrategyContext)
    (targets : list string) (self : ThresholdStrategy) :
  Method.decide_flip_three_target context targets self
  = (decide_flip_three_target self context targets, self).
Proof.
  unfold Method.decide_flip_three_target, decide_flip_three_target.
  now destruct (opponent_ids context targets).
Qed.

Lemma method_decide_freeze_target (context : StrategyContext)
    (targets : list string) (self : ThresholdStrategy) :
  Method.decide_freeze_target context targets self
  = (decide_freeze_target self context targets, self).
Proof.
  unfold Method.decide_freeze_target, decide_freeze_target.
  unfold Method.bind, Method.getattr.
  destruct (target_score self <=? my_round_score context); [reflexivity |].
  now destruct (opponent_ids context targets).
Qed.

(** [__init__] does assign: run on any object it leaves the object that
    [init] builds. *)
Lemma method_init (n : option string) (target distance : Z)
    (self : ThresholdStrategy) :
  snd (Method.init n target distance self) = init n target distance.
Proof. reflexivity. Qed.

Example init_assigns :
  Method.init (Some "again"%string) 50 7 init_default
  = (tt, mkThresholdStrategy "again" 50 7).
Proof. reflexivity. Qed.

Section Purity.

Context {NumberCard : Type}.

Lemma invoke_preserves (c : @Call NumberCard) (self : ThresholdStrategy) :
  snd (invoke c self) = self.
Proof.
  destruct c; unfold invoke, Method.bind.
  - now rewrite method_decide_hit_or_stay.
  - now rewrite method_decide_second_chance_discard.
  - now rewrite method_decide_flip_three_target.
  - now rewrite method_decide_freeze_target.
  - now rewrite method_opponent_can_win.
Qed.

Lemma run_preserves (calls : list (@Call NumberCard))
    (self : ThresholdStrategy) :
  snd (run calls self) = self.
Proof.
  revert self. induction calls as [| c calls IH]; intros self; cbn [run].
  - reflexivity.
  - unfold Method.bind. pose proof (invoke_preserves c self) as Hc.
    destruct (invoke c self) as [r self']. cbn [snd] in Hc. subst self'.
    specialize (IH self). destruct (run calls self) as [rs self''].
    exact IH.
Qed.

Lemma run_results (calls : list (@Call NumberCard))
    (self : ThresholdStrategy) :
  fst (run calls self) = map (fun c => fst (invoke c self)) calls.
Proof.
  revert self. induction calls as [| c calls IH]; intros self;
    cbn [run map].
  - reflexivity.
  - unfold Method.bind. pose proof (invoke_preserves c self) as Hc.
    destruct (invoke c self) as [r self'] eqn:E. cbn [snd] in Hc.
    subst self'. specialize (IH self).
    destruct (run calls self) as [rs self'']. cbn [fst] in *.
    unfold Method.ret. cbn [fst]. now rewrite IH.
Qed.

Lemma opponent_can_win_configuration (s s' : ThresholdStrategy)
    (context : StrategyContext) :
  distance_from_200 s = distance_from_200 s' ->
  opponent_can_win s context = opponent_can_win s' context.
Proof.
  intros Hd. unfold opponent_can_win.
  induction (opponents context) as [| o l IH]; cbn [opponent_can_win_loop].
  - reflexivity.
  - unfold opponent_threatens. now rewrite Hd, IH.
Qed.

Lemma invoke_configuration (c : @Call NumberCard)
    (self : ThresholdStrategy) (n : string) :
  fst (invoke c
         (mkThresholdStrategy n (target_score self) (distance_from_200 self)))
  = fst (invoke c self).
Proof.
  destruct c; unfold invoke, Method.bind.
  - rewrite !method_decide_hit_or_stay. cbn [fst Method.ret]. f_equal.
    unfold decide_hit_or_stay. cbn [target_score].
    now rewrite (opponent_can_win_configuration _ self).
  - now rewrite !method_decide_second_chance_discard.
  - now rewrite !method_decide_flip_three_target.
  - now rewrite !method_decide_freeze_target.
  - rewrite !method_opponent_can_win. cbn [fst Method.ret]. f_equal.
    now apply opponent_can_win_configuration.
Qed.

End Purity.

(** C9.  No operation changes [target_score] or [distance_from_200]: the
    method bodies, run one after the other on an object, leave it as it
    was after any history of calls.  The result of a call is a function of
    its arguments and these two constants alone: it is the same after any
    two histories, each result of a history is the result of the same call
    made first, and an object with another name and the same two constants
    answers alike. *)
Theorem operations_are_pure :
  forall (NumberCard : Type) (history history' : list (@Call NumberCard))
         (c : @Call NumberCard) (self : ThresholdStrategy) (n : string),
    snd (run history self) = self
    /\ target_score (snd (run history self)) = target_score self
    /\ distance_from_200 (snd (run history self)) = distance_from_200 self
    /\ fst (invoke c (snd (run history self)))
       = fst (invoke c (snd (run history' self)))
    /\ fst (run history self) = map (fun c => fst (invoke c self)) history
    /\ fst (invoke c (mkThresholdStrategy n (target_score self)
                        (distance_from_200 self)))
       = fst (invoke c self).
Proof.
  intros NumberCard history history' c self n.
  rewrite !run_preserves. repeat split.
  - apply run_results.
  - apply invoke_configuration.
Qed.

(** ** The scenarios of the specification *)

Example scenario_A :
  decide_hit_or_stay (init None 100 0) (Samples.ctx 50 []) = true.
Proof. reflexivity. Qed.

Example scenario_B :
  decide_hit_or_stay (init None 100 0)
    (Samples.ctx 120 [Samples.opp "p2" 150 40]) = false.
Proof. reflexivity. Qed.

Example scenario_C :
  decide_hit_or_stay (init None 100 0)
    (Samples.ctx 120 [Samples.opp "p2" 150 60]) = true.
Proof. reflexivity. Qed.

Example scenario_D :
  decide_flip_three_target (init None 100 0)
    (Samples.ctx 0 [Samples.opp "p2" 80 0; Samples.opp "p3" 120 0])
    ["p2"; "p3"]%string = Some "p3"%string.
Proof. reflexivity. Qed.

Example scenario_E :
  decide_freeze_target (init None 100 0)
    (Samples.ctx 100 [Samples.opp "p2" 180 0]) ["p1"; "p2"]%string
  = Some "p1"%string.
Proof. reflexivity. Qed.

Example opponent_at_200_stayed :
  decide_hit_or_stay (init None 100 0)
    (Samples.ctx 120 [mkOpponentInfo "p2" 200 0 true false]) = true.
Proof. reflexivity. Qed.

Example default_name : name init_default = "Threshold(100)"%string.
Proof. reflexivity. Qed.

Example same_card_twice :
  decide_second_chance_discard (init None 100 0) (Samples.ctx 0 []) 7
    [7; 7] = Some 7.
Proof. reflexivity. Qed.

(** ** Further properties of [opponent_can_win] and [decide_hit_or_stay] *)

(** X1.  As soon as one opponent has a total score of at least 200,
    [decide_hit_or_stay] returns true: whatever the own round score, the
    target, the distance and the state of the forced draw are, and whether
    or not that opponent has stayed or busted. *)
Theorem hit_when_opponent_at_200 :
  forall (self : ThresholdStrategy) (context : StrategyContext)
         (o : OpponentInfo),
    In o (opponents context) -> 200 <= total_score o ->
    decide_hit_or_stay self context = true.
Proof.
  intros self context o Hin Ho. unfold decide_hit_or_stay.
  destruct (my_flip_three_active context && (0 <? my_flip_three_count context));
    [reflexivity |].
  apply orb_true_iff. right. unfold opponent_can_win.
  apply opponent_can_win_loop_true. exists o. split; [exact Hin |].
  apply opponent_threatens_true. now left.
Qed.

Lemma hit_when_opponent_at_200_witness :
  decide_hit_or_stay (Samples.strategy 0)
    (Samples.ctx 500 [Samples.opp "p2" 10 0;
                      mkOpponentInfo "p3" 200 0 true true]) = true.
Proof.
  apply (hit_when_opponent_at_200 (Samples.strategy 0)
           (Samples.ctx 500 [Samples.opp "p2" 10 0;
                             mkOpponentInfo "p3" 200 0 true true])
           (mkOpponentInfo "p3" 200 0 true true)).
  - right. left. reflexivity.
  - cbn. lia.
Defined.

(** X2.  The answer of [opponent_can_win] depends on which opponents the
    context holds, not on their order or multiplicity: a context whose
    opponents all occur in another one cannot answer true where the other
    answers false, and two contexts with the same opponents answer alike.
    [decide_hit_or_stay] then agrees too when the own fields agree. *)
Theorem opponent_can_win_members :
  forall (self : ThresholdStrategy) (id id' : string) (round count : Z)
         (active : bool) (opps opps' : list OpponentInfo),
    (forall o, In o opps -> In o opps') ->
    (opponent_can_win self (mkStrategyContext id round active count opps)
     = true ->
     opponent_can_win self (mkStrategyContext id' round active count opps')
     = true)
    /\ ((forall o, In o opps' -> In o opps) ->
        opponent_can_win self (mkStrategyContext id round active count opps)
        = opponent_can_win self
            (mkStrategyContext id' round active count opps')
        /\ decide_hit_or_stay self
             (mkStrategyContext id round active count opps)
           = decide_hit_or_stay self
               (mkStrategyContext id' round active count opps')).
Proof.
  intros self id id' round count active opps opps' Hsub.
  assert (Hmono : forall l l', (forall o, In o l -> In o l') ->
            opponent_can_win_loop self l = true ->
            opponent_can_win_loop self l' = true).
  { intros l l' Hl. rewrite !opponent_can_win_loop_true.
    intros [o [Hin Ho]]. exists o. split; [now apply Hl | exact Ho]. }
  unfold decide_hit_or_stay, opponent_can_win. cbn [opponents
    my_flip_three_active my_flip_three_count my_round_score].
  split; [now apply Hmono |]. intros Hsup.
  assert (Heq : opponent_can_win_loop self opps
                = opponent_can_win_loop self opps').
  { destruct (opponent_can_win_loop self opps) eqn:E.
    - symmetry. now apply (Hmono opps opps').
    - destruct (opponent_can_win_loop self opps') eqn:E'; [| reflexivity].
      rewrite (Hmono opps' opps Hsup E') in E. discriminate E. }
  split; [exact Heq | now rewrite Heq].
Qed.

Lemma opponent_can_win_members_witness :
  opponent_can_win (Samples.strategy 0)
    (Samples.ctx 120 [Samples.opp "p2" 10 0; Samples.opp "p3" 150 60;
                      Samples.opp "p2" 10 0]) = true.
Proof.
  refine (proj1 (opponent_can_win_members (Samples.strategy 0) "p1" "p1" 120
                   0 false [Samples.opp "p3" 150 60]
                   [Samples.opp "p2" 10 0; Samples.opp "p3" 150 60;
                    Samples.opp "p2" 10 0] _) _).
  - intros o [<- | []]. right. left. reflexivity.
  - reflexivity.
Defined.

(** X3.  [opponent_can_win] is monotone in the opponents' scores: when
    every opponent of a context has a counterpart in another context with
    the same [has_stayed] and [is_busted] and with total and round scores
    that are not lower, a true answer on the first context is a true
    answer on the second. *)
Theorem opponent_can_win_scores_monotone :
  forall (self : ThresholdStrategy) (context context' : StrategyContext),
    (forall o, In o (opponents context) ->
       exists o', In o' (opponents context') /\ scores_raised o o') ->
    opponent_can_win self context = true ->
    opponent_can_win self context' = true.
Proof.
  intros self context context' Hrel. unfold opponent_can_win.
  rewrite !opponent_can_win_loop_true. intros [o [Hin Ho]].
  destruct (Hrel o Hin) as [o' [Hin' [Hs [Hb [Ht Hr]]]]].
  exists o'. split; [exact Hin' |].
  apply opponent_threatens_true. apply opponent_threatens_true in Ho.
  destruct Ho as [Ho | [Hs0 [Hb0 Ho]]]; [left; lia | right].
  repeat split; [congruence | congruence | lia].
Qed.

Lemma opponent_can_win_scores_monotone_witness :
  opponent_can_win (Samples.strategy 0)
    (Samples.ctx 120 [Samples.opp "p2" 160 70]) = true.
Proof.
  apply (opponent_can_win_scores_monotone (Samples.strategy 0)
           (Samples.ctx 120 [Samples.opp "p2" 150 60])
           (Samples.ctx 120 [Samples.opp "p2" 160 70])).
  - intros o [<- | []]. exists (Samples.opp "p2" 160 70).
    split; [now left |]. unfold scores_raised. cbn. repeat split; lia.
  - reflexivity.
Defined.

(** X4.  An opponent that has stayed or busted counts only through its
    banked total: when every opponent of the context has stayed or busted,
    [opponent_can_win] returns true exactly when some opponent has a total
    score of at least 200, whatever [distance_from_200] and the round
    scores are. *)
Theorem opponent_can_win_all_out :
  forall (self : ThresholdStrategy) (context : StrategyContext),
    (forall o, In o (opponents context) ->
       has_stayed o = true \/ is_busted o = true) ->
    (opponent_can_win self context = true <->
     exists o, In o (opponents context) /\ 200 <= total_score o).
Proof.
  intros self context Hout. unfold opponent_can_win.
  rewrite opponent_can_win_loop_true. split.
  - intros [o [Hin Ho]]. exists o. split; [exact Hin |].
    apply opponent_threatens_true in Ho.
    destruct Ho as [Ho | [Hs [Hb _]]]; [exact Ho |].
    destruct (Hout o Hin); congruence.
  - intros [o [Hin Ho]]. exists o. split; [exact Hin |].
    apply opponent_threatens_true. now left.
Qed.

Lemma opponent_can_win_all_out_witness :
  opponent_can_win (Samples.strategy 50)
    (Samples.ctx 120 [mkOpponentInfo "p2" 190 30 true false]) = true <->
  exists o, In o [mkOpponentInfo "p2" 190 30 true false]
            /\ 200 <= total_score o.
Proof.
  apply (opponent_can_win_all_out (Samples.strategy 50)
           (Samples.ctx 120 [mkOpponentInfo "p2" 190 30 true false])).
  intros o [<- | []]. left. reflexivity.
Defined.

(** X5.  [decide_hit_or_stay] is monotone in the target and antitone in
    the own round score: a strategy with a target that is not lower, on a
    context with a round score that is not higher and otherwise equal,
    hits wherever the first one hits. *)
Theorem decide_hit_or_stay_target_monotone :
  forall (n n' : string) (target target' distance : Z)
         (id id' : string) (round round' count : Z) (active : bool)
         (opps : list OpponentInfo),
    target <= target' -> round' <= round ->
    decide_hit_or_stay (mkThresholdStrategy n target distance)
      (mkStrategyContext id round active count opps) = true ->
    decide_hit_or_stay (mkThresholdStrategy n' target' distance)
      (mkStrategyContext id' round' active count opps) = true.
Proof.
  intros n n' target target' distance id id' round round' count active opps
    Ht Hr. unfold decide_hit_or_stay.
  cbn [my_flip_three_active my_flip_three_count my_round_score target_score].
  destruct (active && (0 <? count)); [trivial |].
  rewrite !orb_true_iff, !Z.ltb_lt. intros [H | H]; [left; lia | right].
  rewrite <- H.
  exact (opponent_can_win_configuration
           (mkThresholdStrategy n' target' distance)
           (mkThresholdStrategy n target distance)
           (mkStrategyContext id round active count opps) eq_refl).
Qed.

Lemma decide_hit_or_stay_target_monotone_witness :
  decide_hit_or_stay (mkThresholdStrategy "b" 120 0)
    (mkStrategyContext "p1" 90 false 0 []) = true.
Proof.
  apply (decide_hit_or_stay_target_monotone "a" "b" 100 120 0 "p1" "p1"
           99 90 0 false []).
  - lia.
  - lia.
  - reflexivity.
Defined.

(** X6.  The stay decision and the freeze decision agree: on every
    context where [decide_hit_or_stay] returns false,
    [decide_freeze_target] returns the caller's own [my_player_id], for
    every [possible_targets]. *)
Theorem stay_implies_freeze_self :
  forall (self : ThresholdStrategy) (context : StrategyContext)
         (possible_targets : list string),
    decide_hit_or_stay self context = false ->
    decide_freeze_target self context possible_targets
    = Some (my_player_id context).
Proof.
  intros self context targets Hstay. unfold decide_hit_or_stay in Hstay.
  destruct (my_flip_three_active context && (0 <? my_flip_three_count context));
    [discriminate |].
  apply orb_false_iff in Hstay. destruct Hstay as [Hlt _].
  apply Z.ltb_ge in Hlt. unfold decide_freeze_target.
  apply Z.leb_le in Hlt. now rewrite Hlt.
Qed.

Lemma stay_implies_freeze_self_witness :
  decide_freeze_target (Samples.strategy 0)
    (Samples.ctx 120 [Samples.opp "p2" 150 40]) ["p1"; "p2"]%string
  = Some "p1"%string.
Proof.
  apply (stay_implies_freeze_self (Samples.strategy 0)
           (Samples.ctx 120 [Samples.opp "p2" 150 40]) ["p1"; "p2"]%string).
  reflexivity.
Defined.

(** ** Further properties of [decide_second_chance_discard] *)

(** X7.  [decide_second_chance_discard] fails (an [IndexError]) exactly on
    the empty sequence; on a sequence of one card it returns that card,
    whatever [duplicate_value] is. *)
Theorem decide_second_chance_discard_fails_iff_empty :
  forall (NumberCard : Type) (self : ThresholdStrategy)
         (context : StrategyContext) (duplicate_value : Z)
         (duplicate_cards : list NumberCard),
    (decide_second_chance_discard self context duplicate_value
       duplicate_cards = None <-> duplicate_cards = [])
    /\ (forall c : NumberCard,
          decide_second_chance_discard self context duplicate_value [c]
          = Some c).
Proof.
  intros NumberCard self context v cards.
  unfold decide_second_chance_discard. split; [split |].
  - intros Hnone. destruct cards as [| c cards]; [reflexivity |].
    assert (Hne : c :: cards <> []) by discriminate.
    destruct (snoc_of_nonempty _ Hne) as [front [x Hx]].
    rewrite Hx, getitem_last in Hnone. discriminate Hnone.
  - intros ->. apply getitem_nil.
  - intros c. apply (getitem_last []).
Qed.

(** ** Further properties of the target operations *)

Lemma flip_three_target_unfold (self : ThresholdStrategy)
    (context : StrategyContext) (possible_targets : list string) :
  decide_flip_three_target self context possible_targets
  = match eligible_opponents context possible_targets with
    | [] => Some (my_player_id context)
    | _ :: _ =>
        Py.max_by
          (fun pid =>
             Py.dict_get
               (record_scores (eligible_opponents context possible_targets)
                  []) pid)
          (Py.dict_keys
             (record_scores (eligible_opponents context possible_targets) []))
    end.
Proof.
  destruct (eligible_opponents context possible_targets) as [| e es] eqn:E.
  - unfold decide_flip_three_target. now rewrite opponent_ids_eligible, E.
  - rewrite <- E. apply flip_three_target_eligible. rewrite E. discriminate.
Qed.

Lemma freeze_target_unfold (self : ThresholdStrategy)
    (context : StrategyContext) (possible_targets : list string) :
  decide_freeze_target self context possible_targets
  = if target_score self <=? my_round_score context
    then Some (my_player_id context)
    else decide_flip_three_target self context possible_targets.
Proof. reflexivity. Qed.

(** X8.  [decide_freeze_target] always returns a player id (the [max] is
    never taken over an empty dict and no key is missing).  The id is the
    caller's own, or, with the round score below the target, the id of an
    opponent that appears in [possible_targets]. *)
Theorem decide_freeze_target_range :
  forall (self : ThresholdStrategy) (context : StrategyContext)
         (possible_targets : list string),
    exists r,
      decide_freeze_target self context possible_targets = Some r
      /\ (r = my_player_id context
          \/ (my_round_score context < target_score self
              /\ In r possible_targets
              /\ In r (map player_id (opponents context)))).
Proof.
  intros self context targets. rewrite freeze_target_unfold.
  destruct (Z.leb_spec (target_score self) (my_round_score context))
    as [Hge | Hlt].
  - exists (my_player_id context). split; [reflexivity | now left].
  - destruct (eligible_opponents context targets) as [| e es] eqn:E.
    + exists (my_player_id context). rewrite flip_three_target_unfold, E.
      split; [reflexivity | now left].
    + assert (Hne : eligible_opponents context targets <> [])
        by (rewrite E; discriminate).
      destruct (flip_three_target_defined self context targets Hne)
        as [o [Ho Hd]].
      exists (player_id o). split; [exact Hd | right].
      apply eligible_opponents_In in Ho. destruct Ho as [Hopp Hp].
      split; [exact Hlt |]. split; [exact Hp | now apply in_map].
Qed.

Lemma eligible_opponents_same_members (context : StrategyContext)
    (targets targets' : list string) :
  (forall p, In p targets <-> In p targets') ->
  eligible_opponents context targets = eligible_opponents context targets'.
Proof.
  intros Hsame. unfold eligible_opponents. apply filter_ext. intros o.
  destruct (Py.contains targets' (player_id o)) eqn:E.
  - apply contains_In. apply Hsame. now apply contains_In.
  - apply contains_not_In. intros Hin. apply Hsame in Hin.
    apply contains_In in Hin. congruence.
Qed.

(** X9.  The target operations read [possible_targets] as a set: two
    sequences with the same members, in any order and with any repetition,
    give the same answer. *)
Theorem targets_read_as_set :
  forall (self : ThresholdStrategy) (context : StrategyContext)
         (possible_targets possible_targets' : list string),
    (forall p, In p possible_targets <-> In p possible_targets') ->
    decide_flip_three_target self context possible_targets
    = decide_flip_three_target self context possible_targets'
    /\ decide_freeze_target self context possible_targets
       = decide_freeze_target self context possible_targets'.
Proof.
  intros self context targets targets' Hsame.
  assert (Hflip : decide_flip_three_target self context targets
                  = decide_flip_three_target self context targets').
  { rewrite !flip_three_target_unfold.
    now rewrite (eligible_opponents_same_members context targets targets'). }
  split; [exact Hflip |]. rewrite !freeze_target_unfold. now rewrite Hflip.
Qed.

Lemma targets_read_as_set_witness :
  decide_flip_three_target (Samples.strategy 0)
    (Samples.ctx 10 [Samples.opp "p2" 80 0; Samples.opp "p3" 120 0])
    ["p2"; "p3"]%string
  = decide_flip_three_target (Samples.strategy 0)
      (Samples.ctx 10 [Samples.opp "p2" 80 0; Samples.opp "p3" 120 0])
      ["p3"; "p2"; "p3"]%string
  /\ decide_freeze_target (Samples.strategy 0)
       (Samples.ctx 10 [Samples.opp "p2" 80 0; Samples.opp "p3" 120 0])
       ["p2"; "p3"]%string
     = decide_freeze_target (Samples.strategy 0)
         (Samples.ctx 10 [Samples.opp "p2" 80 0; Samples.opp "p3" 120 0])
         ["p3"; "p2"; "p3"]%string.
Proof.
  apply (targets_read_as_set (Samples.strategy 0)
           (Samples.ctx 10 [Samples.opp "p2" 80 0; Samples.opp "p3" 120 0])
           ["p2"; "p3"]%string ["p3"; "p2"; "p3"]%string).
  intros p. cbn. tauto.
Defined.

Lemma record_scores_entries (l : list OpponentInfo) (d : Py.dict) :
  record_scores l d
  = fold_left (fun acc e => Py.dict_set acc (fst e) (snd e))
      (map score_entry l) d.
Proof.
  revert d. induction l as [| o l IH]; intros d; [reflexivity |].
  cbn [record_scores fold_left map]. apply IH.
Qed.

Lemma eligible_opponents_entries (context : StrategyContext)
    (targets : list string) :
  map score_entry (eligible_opponents context targets)
  = filter (fun e => Py.contains targets (fst e))
      (map score_entry (opponents context)).
Proof.
  unfold eligible_opponents.
  induction (opponents context) as [| o l IH]; [reflexivity |].
  cbn [filter map score_entry fst].
  destruct (Py.contains targets (player_id o)); cbn [map]; now rewrite IH.
Qed.

(** X10.  The choice of [decide_flip_three_target] is made from the own id,
    the opponents' ids and total scores and [possible_targets] alone: two
    contexts with the same [my_player_id] whose opponents carry, in order,
    the same ids and total scores give the same answer, whatever the
    strategy's configuration, the round scores and the [has_stayed] and
    [is_busted] flags are.  In particular an opponent that has stayed or
    busted is chosen like any other. *)
Theorem flip_three_target_reads_ids_and_totals :
  forall (self self' : ThresholdStrategy) (context context' : StrategyContext)
         (possible_targets : list string),
    my_player_id context = my_player_id context' ->
    map score_entry (opponents context)
    = map score_entry (opponents context') ->
    decide_flip_three_target self context possible_targets
    = decide_flip_three_target self' context' possible_targets.
Proof.
  intros self self' context context' targets Hid Hopps.
  rewrite !flip_three_target_unfold.
  assert (HE : map score_entry (eligible_opponents context targets)
               = map score_entry (eligible_opponents context' targets))
    by (rewrite !eligible_opponents_entries; now rewrite Hopps).
  rewrite (record_scores_entries (eligible_opponents context targets)),
          (record_scores_entries (eligible_opponents context' targets)), HE.
  destruct (eligible_opponents context targets) as [| e es];
    destruct (eligible_opponents context' targets) as [| e' es'];
    try discriminate HE; [now rewrite Hid | reflexivity].
Qed.

Lemma flip_three_target_reads_ids_and_totals_witness :
  decide_flip_three_target (Samples.strategy 0)
    (Samples.ctx 10 [Samples.opp "p2" 80 0; Samples.opp "p3" 120 0])
    ["p2"; "p3"]%string
  = decide_flip_three_target (mkThresholdStrategy "other" 7 30)
      (mkStrategyContext "p1" 300 true 3
         [mkOpponentInfo "p2" 80 15 true false;
          mkOpponentInfo "p3" 120 0 false true])
      ["p2"; "p3"]%string.
Proof.
  apply (flip_three_target_reads_ids_and_totals (Samples.strategy 0)
           (mkThresholdStrategy "other" 7 30)
           (Samples.ctx 10 [Samples.opp "p2" 80 0; Samples.opp "p3" 120 0])
           (mkStrategyContext "p1" 300 true 3
              [mkOpponentInfo "p2" 80 15 true false;
               mkOpponentInfo "p3" 120 0 false true])
           ["p2"; "p3"]%string).
  - reflexivity.
  - reflexivity.
Defined.

(** ** The choice among opponents that share ids *)

Lemma dict_get_set (d : Py.dict) (k : string) (v : Z) (k' : string) :
  Py.dict_get (Py.dict_set d k v) k'
  = if String.eqb k k' then Some v else Py.dict_get d k'.
Proof.
  induction d as [| [k0 v0] d IH]; cbn [Py.dict_set Py.dict_get].
  - reflexivity.
  - destruct (String.eqb_spec k0 k) as [-> | Hne]; cbn [Py.dict_get].
    + now destruct (String.eqb k k').
    + rewrite IH. destruct (String.eqb_spec k0 k') as [<- | _];
        [| reflexivity].
      destruct (String.eqb_spec k k0) as [-> | _]; [congruence | reflexivity].
Qed.

Lemma dict_get_record_scores (l : list OpponentInfo) (d : Py.dict)
    (k : string) :
  Py.dict_get (record_scores l d) k
  = match ranking_score l k with
    | Some v => Some v
    | None => Py.dict_get d k
    end.
Proof.
  revert d. induction l as [| o l IH]; intros d;
    cbn [record_scores fold_left ranking_score]; [reflexivity |].
  fold (record_scores l (record_score d o)). rewrite IH.
  destruct (ranking_score l k); [reflexivity |].
  unfold record_score. rewrite dict_get_set.
  now destruct (String.eqb (player_id o) k).
Qed.

Lemma dict_get_scores (l : list OpponentInfo) (k : string) :
  Py.dict_get (record_scores l []) k = ranking_score l k.
Proof.
  rewrite dict_get_record_scores. now destruct (ranking_score l k).
Qed.

Lemma dict_keys_set_order (d : Py.dict) (k : string) (v : Z) :
  Py.dict_keys (Py.dict_set d k v)
  = if Py.contains (Py.dict_keys d) k then Py.dict_keys d
    else Py.dict_keys d ++ [k].
Proof.
  induction d as [| [k0 v0] d IH]; [reflexivity |].
  cbn [Py.dict_set]. unfold Py.dict_keys, Py.contains in *.
  cbn [map fst existsb].
  destruct (String.eqb k0 k); cbn [map fst orb]; [reflexivity |].
  rewrite IH. now destruct (existsb (fun y => String.eqb y k) (map fst d)).
Qed.

Lemma record_scores_keys_order (l : list OpponentInfo) (d : Py.dict) :
  Py.dict_keys (record_scores l d)
  = fold_left (fun acc k => if Py.contains acc k then acc else acc ++ [k])
      (map player_id l) (Py.dict_keys d).
Proof.
  revert d. induction l as [| o l IH]; intros d; [reflexivity |].
  cbn [record_scores fold_left map].
  fold (record_scores l (record_score d o)). rewrite IH.
  unfold record_score. now rewrite dict_keys_set_order.
Qed.

Lemma max_scan_split {A : Type} (key : A -> option Z) (l : list A) :
  forall best bestk,
    key best = Some bestk ->
    (forall x, In x l -> exists k, key x = Some k) ->
    exists r kr l1 l2,
      Py.max_scan key best bestk l = Some r
      /\ key r = Some kr
      /\ best :: l = l1 ++ r :: l2
      /\ Forall (fun x => exists k, key x = Some k /\ k < kr) l1
      /\ Forall (fun x => exists k, key x = Some k /\ k <= kr) l2.
Proof.
  induction l as [| x l IH]; intros best bestk Hbest Hkey; cbn [Py.max_scan].
  - exists best, bestk, [], []. split; [reflexivity |].
    split; [exact Hbest |]. split; [reflexivity |]. split; constructor.
  - destruct (Hkey x (or_introl eq_refl)) as [k Hk]. rewrite Hk.
    assert (Hkey' : forall y, In y l -> exists k, key y = Some k)
      by (intros y Hy; apply Hkey; now right).
    destruct (Z.ltb_spec bestk k) as [Hlt | Hge].
    + destruct (IH x k Hk Hkey') as [r [kr [l1 [l2 [Hr [Hkr [Heq [H1 H2]]]]]]]].
      exists r, kr, (best :: l1), l2.
      split; [exact Hr |]. split; [exact Hkr |].
      split; [cbn [app]; now rewrite Heq |]. split; [| exact H2].
      constructor; [| exact H1]. exists bestk. split; [exact Hbest |].
      destruct l1 as [| y l1]; cbn [app] in Heq; injection Heq as Hy Hrest.
      * subst r. rewrite Hk in Hkr. injection Hkr as <-. exact Hlt.
      * subst y. apply Forall_inv in H1. destruct H1 as [k' [Hk' Hlt']].
        rewrite Hk in Hk'. injection Hk' as <-. lia.
    + destruct (IH best bestk Hbest Hkey')
        as [r [kr [l1 [l2 [Hr [Hkr [Heq [H1 H2]]]]]]]].
      destruct l1 as [| y l1]; cbn [app] in Heq; injection Heq as Hy Hrest.
      * subst r. rewrite Hbest in Hkr. injection Hkr as <-.
        exists best, bestk, [], (x :: l).
        split; [exact Hr |]. split; [exact Hbest |].
        split; [reflexivity |]. split; [constructor |].
        constructor; [exists k; now split | now rewrite Hrest].
      * subst y. exists r, kr, (best :: x :: l1), l2.
        split; [exact Hr |]. split; [exact Hkr |].
        split; [cbn [app]; now rewrite Hrest |]. split; [| exact H2].
        pose proof (Forall_inv H1) as [kb [Hkb Hltb]].
        rewrite Hbest in Hkb. injection Hkb as <-.
        apply Forall_inv_tail in H1.
        constructor; [exists bestk; now split |].
        constructor; [exists k; split; [exact Hk | lia] | exact H1].
Qed.

(** The choice over any non-empty list of eligible opponents: ids in the
    order of their first occurrence, each ranked by the total score of its
    last occurrence, the first of the highest ranked ids is returned. *)
Lemma flip_three_target_ranking (self : ThresholdStrategy)
    (context : StrategyContext) (possible_targets : list string) :
  eligible_opponents context possible_targets <> [] ->
  exists r v before after,
    decide_flip_three_target self context possible_targets = Some r
    /\ ranking_score (eligible_opponents context possible_targets) r = Some v
    /\ first_occurrences
         (map player_id (eligible_opponents context possible_targets))
       = before ++ r :: after
    /\ Forall (fun k => exists v',
                 ranking_score (eligible_opponents context possible_targets) k
                 = Some v' /\ v' < v) before
    /\ Forall (fun k => exists v',
                 ranking_score (eligible_opponents context possible_targets) k
                 = Some v' /\ v' <= v) after.
Proof.
  intros Hne. rewrite (flip_three_target_eligible self _ _ Hne).
  set (E := eligible_opponents context possible_targets) in *.
  assert (Hkeys : Py.dict_keys (record_scores E [])
                  = first_occurrences (map player_id E))
    by apply record_scores_keys_order.
  assert (Hdef : forall k, In k (Py.dict_keys (record_scores E [])) ->
            exists v, ranking_score E k = Some v).
  { intros k Hk. destruct (dict_get_defined _ _ Hk) as [v Hv].
    exists v. now rewrite <- dict_get_scores. }
  rewrite <- Hkeys.
  destruct (Py.dict_keys (record_scores E [])) as [| k0 ks] eqn:K.
  - exfalso. destruct E as [| o E']; [congruence |].
    assert (Hin : In (player_id o)
                    (Py.dict_keys (record_scores (o :: E') [])))
      by (apply record_scores_keys; right; now left).
    rewrite K in Hin. destruct Hin.
  - cbn [Py.max_by]. destruct (Hdef k0 (or_introl eq_refl)) as [v0 Hv0].
    rewrite dict_get_scores, Hv0.
    destruct (max_scan_split
                (fun pid => Py.dict_get (record_scores E []) pid) ks k0 v0)
      as [r [kr [l1 [l2 [Hr [Hkr [Heq [H1 H2]]]]]]]].
    + now rewrite dict_get_scores.
    + intros x Hx. destruct (Hdef x (or_intror Hx)) as [v Hv].
      exists v. now rewrite dict_get_scores.
    + exists r, kr, l1, l2. split; [exact Hr |].
      rewrite dict_get_scores in Hkr. split; [exact Hkr |].
      split; [exact Heq |].
      split; [eapply Forall_impl; [| exact H1]
             | eapply Forall_impl; [| exact H2]];
        intros k [v' [Hv' Hle]]; exists v';
        (split; [now rewrite <- dict_get_scores | exact Hle]).
Qed.

Lemma first_occurrences_In (l : list OpponentInfo) (k : string) :
  In k (first_occurrences (map player_id l)) <-> In k (map player_id l).
Proof.
  change (first_occurrences (map player_id l))
    with (fold_left
            (fun acc k => if Py.contains acc k then acc else acc ++ [k])
            (map player_id l) (Py.dict_keys [])).
  rewrite <- (record_scores_keys_order l []), record_scores_keys.
  cbn. tauto.
Qed.

(** X11.  For every context with an eligible opponent, also when eligible
    opponents share an id: the id returned by [decide_flip_three_target]
    (and by [decide_freeze_target] with the round score below the target)
    is ranked by the total score of the last eligible opponent carrying it,
    and no eligible opponent's id is ranked higher. *)
Theorem target_has_highest_ranking :
  forall (self : ThresholdStrategy) (context : StrategyContext)
         (possible_targets : list string),
    eligible_opponents context possible_targets <> [] ->
    exists r v,
      decide_flip_three_target self context possible_targets = Some r
      /\ (my_round_score context < target_score self ->
          decide_freeze_target self context possible_targets = Some r)
      /\ ranking_score (eligible_opponents context possible_targets) r
         = Some v
      /\ forall o,
           In o (eligible_opponents context possible_targets) ->
           exists v',
             ranking_score (eligible_opponents context possible_targets)
               (player_id o) = Some v'
             /\ v' <= v.
Proof.
  intros self context targets Hne.
  destruct (flip_three_target_ranking self context targets Hne)
    as [r [v [before [after [Hd [Hv [Hsplit [Hb Ha]]]]]]]].
  exists r, v. split; [exact Hd |].
  split; [intros Hlt; now rewrite (freeze_target_below self _ _ Hlt) |].
  split; [exact Hv |]. intros o Ho.
  assert (Hin : In (player_id o) (before ++ r :: after)).
  { rewrite <- Hsplit. apply first_occurrences_In. now apply in_map. }
  apply in_app_or in Hin. destruct Hin as [Hin | [Heq | Hin]].
  - rewrite Forall_forall in Hb. destruct (Hb _ Hin) as [v' [Hv' Hlt]].
    exists v'. split; [exact Hv' | lia].
  - exists v. split; [now rewrite <- Heq | lia].
  - rewrite Forall_forall in Ha. exact (Ha _ Hin).
Qed.

Lemma target_has_highest_ranking_witness :
  exists r v,
    decide_flip_three_target (Samples.strategy 0)
      (Samples.ctx 10 [Samples.opp "p2" 100 0; Samples.opp "p3" 50 0;
                       Samples.opp "p2" 10 0])
      ["p2"; "p3"]%string = Some r
    /\ (10 < target_score (Samples.strategy 0) ->
        decide_freeze_target (Samples.strategy 0)
          (Samples.ctx 10 [Samples.opp "p2" 100 0; Samples.opp "p3" 50 0;
                           Samples.opp "p2" 10 0])
          ["p2"; "p3"]%string = Some r)
    /\ ranking_score
         (eligible_opponents
            (Samples.ctx 10 [Samples.opp "p2" 100 0; Samples.opp "p3" 50 0;
                             Samples.opp "p2" 10 0])
            ["p2"; "p3"]%string) r = Some v
    /\ forall o,
         In o (eligible_opponents
                 (Samples.ctx 10 [Samples.opp "p2" 100 0;
                                  Samples.opp "p3" 50 0;
                                  Samples.opp "p2" 10 0])
                 ["p2"; "p3"]%string) ->
         exists v',
           ranking_score
             (eligible_opponents
                (Samples.ctx 10 [Samples.opp "p2" 100 0;
                                 Samples.opp "p3" 50 0;
                                 Samples.opp "p2" 10 0])
                ["p2"; "p3"]%string) (player_id o) = Some v'
           /\ v' <= v.
Proof.
  apply (target_has_highest_ranking (Samples.strategy 0)
           (Samples.ctx 10 [Samples.opp "p2" 100 0; Samples.opp "p3" 50 0;
                            Samples.opp "p2" 10 0])
           ["p2"; "p3"]%string).
  discriminate.
Defined.

(** X12.  Among the ids ranked highest the one that occurs first among the
    eligible opponents is returned: in the list of the eligible ids in the
    order of their first occurrence, every id before the one returned is
    ranked strictly lower and every id after it is not ranked higher. *)
Theorem target_first_of_highest_ranked :
  forall (self : ThresholdStrategy) (context : StrategyContext)
         (possible_targets : list string),
    eligible_opponents context possible_targets <> [] ->
    exists r v before after,
      decide_flip_three_target self context possible_targets = Some r
      /\ ranking_score (eligible_opponents context possible_targets) r
         = Some v
      /\ first_occurrences
           (map player_id (eligible_opponents context possible_targets))
         = before ++ r :: after
      /\ Forall (fun k => exists v',
                   ranking_score
                     (eligible_opponents context possible_targets) k
                   = Some v' /\ v' < v) before
      /\ Forall (fun k => exists v',
                   ranking_score
                     (eligible_opponents context possible_targets) k
                   = Some v' /\ v' <= v) after.
Proof.
  intros self context targets Hne.
  exact (flip_three_target_ranking self context targets Hne).
Qed.

Lemma target_first_of_highest_ranked_witness :
  exists r v before after,
    decide_flip_three_target (Samples.strategy 0)
      (Samples.ctx 10 [Samples.opp "p2" 50 0; Samples.opp "p3" 50 0;
                       Samples.opp "p2" 10 0; Samples.opp "p4" 50 0])
      ["p2"; "p3"; "p4"]%string = Some r
    /\ ranking_score
         (eligible_opponents
            (Samples.ctx 10 [Samples.opp "p2" 50 0; Samples.opp "p3" 50 0;
                             Samples.opp "p2" 10 0; Samples.opp "p4" 50 0])
            ["p2"; "p3"; "p4"]%string) r = Some v
    /\ first_occurrences
         (map player_id
            (eligible_opponents
               (Samples.ctx 10 [Samples.opp "p2" 50 0; Samples.opp "p3" 50 0;
                                Samples.opp "p2" 10 0; Samples.opp "p4" 50 0])
               ["p2"; "p3"; "p4"]%string))
       = before ++ r :: after
    /\ Forall (fun k => exists v',
                 ranking_score
                   (eligible_opponents
                      (Samples.ctx 10 [Samples.opp "p2" 50 0;
                                       Samples.opp "p3" 50 0;
                                       Samples.opp "p2" 10 0;
                                       Samples.opp "p4" 50 0])
                      ["p2"; "p3"; "p4"]%string) k
                 = Some v' /\ v' < v) before
    /\ Forall (fun k => exists v',
                 ranking_score
                   (eligible_opponents
                      (Samples.ctx 10 [Samples.opp "p2" 50 0;
                                       Samples.opp "p3" 50 0;
                                       Samples.opp "p2" 10 0;
                                       Samples.opp "p4" 50 0])
                      ["p2"; "p3"; "p4"]%string) k
                 = Some v' /\ v' <= v) after.
Proof.
  apply (target_first_of_highest_ranked (Samples.strategy 0)
           (Samples.ctx 10 [Samples.opp "p2" 50 0; Samples.opp "p3" 50 0;
                            Samples.opp "p2" 10 0; Samples.opp "p4" 50 0])
           ["p2"; "p3"; "p4"]%string).
  discriminate.
Defined.

Example repeated_id_tie :
  decide_flip_three_target (Samples.strategy 0)
    (Samples.ctx 10 [Samples.opp "p2" 50 0; Samples.opp "p3" 50 0;
                     Samples.opp "p2" 10 0; Samples.opp "p4" 50 0])
    ["p2"; "p3"; "p4"]%string = Some "p3"%string
  /\ first_occurrences ["p2"; "p3"; "p2"; "p4"]%string
     = ["p2"; "p3"; "p4"]%string.
Proof. split; reflexivity. Qed.

(** X13.  With a [distance_from_200] of 0 (the default) or less, the
    second test of [opponent_can_win] needs unbanked round points: when no
    opponent has a positive round score, [opponent_can_win] returns true
    exactly when some opponent has a total score of at least 200. *)
Theorem opponent_can_win_without_round_points :
  forall (self : ThresholdStrategy) (context : StrategyContext),
    distance_from_200 self <= 0 ->
    (forall o, In o (opponents context) -> round_score o <= 0) ->
    (opponent_can_win self context = true <->
     exists o, In o (opponents context) /\ 200 <= total_score o).
Proof.
  intros self context Hd Hround. unfold opponent_can_win.
  rewrite opponent_can_win_loop_true. split.
  - intros [o [Hin Ho]]. exists o. split; [exact Hin |].
    apply opponent_threatens_true in Ho.
    destruct Ho as [Ho | [_ [_ Ho]]]; [exact Ho |].
    specialize (Hround o Hin). lia.
  - intros [o [Hin Ho]]. exists o. split; [exact Hin |].
    apply opponent_threatens_true. now left.
Qed.

Lemma opponent_can_win_without_round_points_witness :
  opponent_can_win init_default
    (Samples.ctx 120 [Samples.opp "p2" 199 0]) = true <->
  exists o, In o [Samples.opp "p2" 199 0] /\ 200 <= total_score o.
Proof.
  apply (opponent_can_win_without_round_points init_default
           (Samples.ctx 120 [Samples.opp "p2" 199 0])).
  - cbn. lia.
  - intros o [<- | []]. cbn. lia.
Defined.

(** X14.  With an eligible opponent, and the own id not the id of any
    opponent, [decide_freeze_target] returns the own id exactly when the
    round score has reached the target; below the target an opponent is
    frozen even when the own id is in [possible_targets]. *)
Theorem freeze_self_iff_target_reached :
  forall (self : ThresholdStrategy) (context : StrategyContext)
         (possible_targets : list string),
    eligible_opponents context possible_targets <> [] ->
    ~ In (my_player_id context) (map player_id (opponents context)) ->
    (decide_freeze_target self context possible_targets
     = Some (my_player_id context)
     <-> target_score self <= my_round_score context).
Proof.
  intros self context targets Hne Hself. split.
  - intros Hd.
    destruct (Z.le_gt_cases (target_score self) (my_round_score context))
      as [Hge | Hlt]; [exact Hge |].
    exfalso. rewrite (freeze_target_below self _ _ Hlt) in Hd.
    destruct (flip_three_target_defined self context targets Hne)
      as [o [Ho Hr]].
    rewrite Hr in Hd. injection Hd as Hid. apply Hself. rewrite <- Hid.
    apply in_map. now apply eligible_opponents_In in Ho.
  - intros Hge. unfold decide_freeze_target. apply Z.leb_le in Hge.
    now rewrite Hge.
Qed.

Lemma freeze_self_iff_target_reached_witness :
  decide_freeze_target (Samples.strategy 0)
    (Samples.ctx 99 [Samples.opp "p2" 5 0]) ["p1"; "p2"]%string
  = Some "p1"%string
  <-> target_score (Samples.strategy 0) <= 99.
Proof.
  apply (freeze_self_iff_target_reached (Samples.strategy 0)
           (Samples.ctx 99 [Samples.opp "p2" 5 0]) ["p1"; "p2"]%string).
  - discriminate.
  - intros [H | []]. discriminate H.
Defined.
